(** * A file-backed wiki served over HTTP: model and properties

    The repository holds three stages of one program:
    - the command-line stage (Page, save, loadPage and a main that saves
      and reloads one page),
    - [wiki.go], the first web stage, whose handlers cut the title out of
      the request path by position,
    - the final web stage, whose handlers are wrapped by [makeHandler] and
      receive a title captured by the [validPath] regular expression.

    [Page], [save] and [loadPage] are textually the same in all three.

    The Go standard library is not part of the repository.  The calls
    the program makes (fmt.Println, ioutil.ReadFile, ioutil.WriteFile,
    http.Error, http.NotFound, http.Redirect, template execution and the
    ResponseWriter they act on) are modelled as transformers of an
    explicit [World], held in module [Go] together with the monad the
    program runs in; every such call is recorded, with its arguments, in
    [calls]. *)

From Stdlib Require Import String Ascii List NArith Lia Bool.
From Stdlib Require Strings.Byte.
From stdpp Require Import base option gmap strings list.

Local Open Scope string_scope.

(** ** Data model *)

(** type Page struct { Title string; Body []byte } *)
Record Page := mkPage { Title : string; Body : list Byte.byte }.

(** A Go [error] value: nil, or an error carrying its message. *)
Definition error := option string.

(** A [*Page]: nil, or a pointer to a Page. *)
Definition PagePtr := option Page.

Module Go.

(** The one-byte string holding a line feed. *)
Definition nl : string := String (ascii_of_nat 10) EmptyString.

(** What is written to an http.ResponseWriter.  [header] is the map
    returned by w.Header(); [wroteHeader] is the status line and the
    copy of the header map taken by the first WriteHeader, which is what
    the client receives; [written] is the body sent so far. *)
Record ResponseWriter := mkRW {
  header : gmap string string;
  wroteHeader : option (nat * gmap string string);
  written : string
}.

Definition newResponse : ResponseWriter :=
  {| header := ∅; wroteHeader := None; written := EmptyString |}.

(** The part of *http.Request the handlers look at. *)
Record Request := mkRequest {
  Method : string;
  URLPath : string;
  Form : gmap string (list string)
}.

(** One record per call that leaves the program. *)
Inductive Call :=
| CPrintln (line : string)
| CReadFile (name : string)
| CWriteFile (name : string) (data : list Byte.byte) (perm : N)
| CError (msg : string) (code : nat)
| CRedirect (url : string) (code : nat)
| CExecuteTemplate (name : string) (data : PagePtr)
| CParseFiles (name : string)
| CExecute (data : PagePtr).

(** The state a request runs against: the files of the working
    directory, the names the operating system refuses to open for
    writing (with the error it reports), standard output, the response
    under construction and the log of calls. *)
Record World := mkWorld {
  files : gmap string (list Byte.byte);
  writeErr : string -> option string;
  stdout : string;
  resp : ResponseWriter;
  calls : list Call
}.

Definition setFiles (f : gmap string (list Byte.byte)) (σ : World) : World :=
  {| files := f; writeErr := writeErr σ; stdout := stdout σ;
     resp := resp σ; calls := calls σ |}.

Definition setStdout (s : string) (σ : World) : World :=
  {| files := files σ; writeErr := writeErr σ; stdout := s;
     resp := resp σ; calls := calls σ |}.

Definition setResp (r : ResponseWriter) (σ : World) : World :=
  {| files := files σ; writeErr := writeErr σ; stdout := stdout σ;
     resp := r; calls := calls σ |}.

Definition record (c : Call) (σ : World) : World :=
  {| files := files σ; writeErr := writeErr σ; stdout := stdout σ;
     resp := resp σ; calls := calls σ ++ [c] |}.

(** A computation either returns or panics; the world is threaded
    through in both cases. *)
Inductive outcome (A : Type) :=
| Done (a : A)
| Panic (msg : string).
Arguments Done {A} a.
Arguments Panic {A} msg.

Definition M (A : Type) : Type := World -> outcome A * World.

Definition ret {A} (a : A) : M A := fun σ => (Done a, σ).

Definition bind {A B} (m : M A) (k : A -> M B) : M B :=
  fun σ => match m σ with
           | (Done a, σ') => k a σ'
           | (Panic msg, σ') => (Panic msg, σ')
           end.

Definition panic {A} (msg : string) : M A := fun σ => (Panic msg, σ).

Definition modify (f : World -> World) : M unit := fun σ => (Done tt, f σ).

Definition gets {A} (f : World -> A) : M A := fun σ => (Done (f σ), σ).

#[global] Instance M_ret : MRet M := @ret.
#[global] Instance M_bind : MBind M := fun A B k m => bind m k.

End Go.

Import Go.

(** ** fmt and ioutil *)

(** The world after a line went to standard output. *)
Definition printed (s : string) (σ : World) : World :=
  record (CPrintln s) (setStdout (stdout σ +:+ s +:+ nl) σ).

(** fmt.Println(s): the line and a line feed go to standard output. *)
Definition Println (s : string) : M unit := modify (printed s).

(** ioutil.ReadFile(name): the whole content of the file, or the error of
    the failed open.  [files] holds the files the process can read; any
    other name fails to open. *)
Definition ReadFile (name : string) : M (list Byte.byte * error) :=
  fun σ =>
    let σ' := record (CReadFile name) σ in
    match files σ !! name with
    | Some data => (Done (data, None), σ')
    | None =>
        (Done ([], Some ("open " +:+ name +:+ ": no such file or directory")), σ')
    end.

(** ioutil.WriteFile(name, data, perm): the file is created or truncated
    and holds exactly [data] afterwards; when the open is refused nothing
    is written and the error is returned. *)
Definition WriteFile (name : string) (data : list Byte.byte) (perm : N) : M error :=
  fun σ =>
    let σ' := record (CWriteFile name data perm) σ in
    match writeErr σ name with
    | Some e => (Done (Some e), σ')
    | None => (Done None, setFiles (<[name := data]> (files σ)) σ')
    end.

(** ** The page store (the same text in all three source files) *)

(** filename := p.Title + ".txt" *)
Definition filename (title : string) : string := title +:+ ".txt".

(** The permission bits 0600 (octal): read and write for the owner. *)
Definition perm0600 : N := 384.

(** func (p *Page) save() error *)
Definition save (p : Page) : M error :=
  let filename := filename (Title p) in
  Println ("saving" +:+ filename);;
  WriteFile filename (Body p) perm0600.

(** func loadPage(title string): returns a *Page and an error *)
Definition loadPage (title : string) : M (PagePtr * error) :=
  let filename := filename title in
  '(body, err) ← ReadFile filename;
  match err with
  | Some e => mret (None, Some e)
  | None => mret (Some {| Title := title; Body := body |}, None)
  end.

(** ** net/http *)

Definition StatusOK : nat := 200.
Definition StatusFound : nat := 302.
Definition StatusNotFound : nat := 404.
Definition StatusInternalServerError : nat := 500.

(** http.StatusText, on the codes the program uses. *)
Definition StatusText (code : nat) : string :=
  if Nat.eqb code StatusOK then "OK"
  else if Nat.eqb code StatusFound then "Found"
  else if Nat.eqb code StatusNotFound then "Not Found"
  else if Nat.eqb code StatusInternalServerError then "Internal Server Error"
  else EmptyString.

(** w.Header().Set(key, value) *)
Definition setHeader (key value : string) (w : ResponseWriter) : ResponseWriter :=
  {| header := <[key := value]> (header w);
     wroteHeader := wroteHeader w;
     written := written w |}.

(** w.WriteHeader(code): the first call fixes the status line and the
    headers that are sent; later calls are ignored. *)
Definition WriteHeader (code : nat) (w : ResponseWriter) : ResponseWriter :=
  match wroteHeader w with
  | Some _ => w
  | None => {| header := header w;
               wroteHeader := Some (code, header w);
               written := written w |}
  end.

(** w.Write(data): sends the header with status 200 when none was sent
    yet, then appends to the body. *)
Definition Write (data : string) (w : ResponseWriter) : ResponseWriter :=
  let w' := WriteHeader StatusOK w in
  {| header := header w';
     wroteHeader := wroteHeader w';
     written := written w' +:+ data |}.

(** fmt.Fprintln(w, s) *)
Definition Fprintln (s : string) (w : ResponseWriter) : ResponseWriter :=
  Write (s +:+ nl) w.

Definition onResp (f : ResponseWriter -> ResponseWriter) (σ : World) : World :=
  setResp (f (resp σ)) σ.

(** The status line the client receives, if one was sent. *)
Definition status (σ : World) : option nat := fst <$> wroteHeader (resp σ).

(** A header of the response as the client receives it. *)
Definition sentHeader (key : string) (σ : World) : option string :=
  wroteHeader (resp σ) ≫= fun sent => snd sent !! key.

(** http.Error(w, msg, code) *)
Definition http_Error (msg : string) (code : nat) : M unit :=
  modify (record (CError msg code));;
  modify (onResp (setHeader "Content-Type" "text/plain; charset=utf-8"));;
  modify (onResp (setHeader "X-Content-Type-Options" "nosniff"));;
  modify (onResp (WriteHeader code));;
  modify (onResp (Fprintln msg)).

(** http.NotFound(w, r) *)
Definition http_NotFound (r : Request) : M unit :=
  http_Error "404 page not found" StatusNotFound.

(** The replacements of net/http's htmlEscape. *)
Fixpoint htmlEscape (s : string) : string :=
  match s with
  | EmptyString => EmptyString
  | String c s' =>
      (if Ascii.eqb c "&" then "&amp;"
       else if Ascii.eqb c "<" then "&lt;"
       else if Ascii.eqb c ">" then "&gt;"
       else if Ascii.eqb c (ascii_of_nat 34) then "&#34;"
       else if Ascii.eqb c "'" then "&#39;"
       else String c EmptyString) +:+ htmlEscape s'
  end.

Definition quote : string := String (ascii_of_nat 34) EmptyString.

(** http.Redirect(w, r, url, code), for a [url] that starts with a slash,
    as every url the handlers build does.  net/http also cleans the path
    of such a url (dot segments, doubled slashes) and escapes its
    non-ASCII bytes before it stores it; that step is left out, so
    Location holds the url as the handler passed it.  On a url made of
    /edit/ or /view/ and letters and digits the step changes nothing. *)
Definition http_Redirect (r : Request) (url : string) (code : nat) : M unit :=
  modify (record (CRedirect url code));;
  h ← gets (fun σ => header (resp σ));
  let hadCT := bool_decide (is_Some (h !! "Content-Type")) in
  let isGET := bool_decide (Method r = "GET") in
  let isHEAD := bool_decide (Method r = "HEAD") in
  modify (onResp (setHeader "Location" url));;
  (if negb hadCT && (isGET || isHEAD)
   then modify (onResp (setHeader "Content-Type" "text/html; charset=utf-8"))
   else mret tt);;
  modify (onResp (WriteHeader code));;
  (if negb hadCT && isGET
   then modify (onResp (Fprintln
          ("<a href=" +:+ quote +:+ htmlEscape url +:+ quote +:+ ">"
           +:+ StatusText code +:+ "</a>." +:+ nl)))
   else mret tt).

(** r.FormValue(key): the first value of the field, or the empty string. *)
Definition FormValue (r : Request) (key : string) : string :=
  match Form r !! key with
  | Some (v :: _) => v
  | _ => EmptyString
  end.

(** ** Strings and slices *)

(** s[n:], which panics when n exceeds len(s): None stands for the panic. *)
Fixpoint sliceFrom (n : nat) (s : string) : option string :=
  match n with
  | 0 => Some s
  | S n' => match s with
            | EmptyString => None
            | String _ s' => sliceFrom n' s'
            end
  end.

(** m[i] on a slice of strings, which panics when i is out of range. *)
Definition index (m : list string) (i : nat) : M string :=
  match m !! i with
  | Some x => mret x
  | None => panic "index out of range"
  end.

(** ** The path pattern  ^/(edit|save|view)/([a-zA-Z0-9]+)$ *)

(** [stripPrefix p s] is the rest of [s] after the literal [p]. *)
Fixpoint stripPrefix (p s : string) : option string :=
  match p with
  | EmptyString => Some s
  | String c p' =>
      match s with
      | EmptyString => None
      | String d s' => if Ascii.eqb c d then stripPrefix p' s' else None
      end
  end.

(** An alternation of literals: the first one that starts [s], and the
    rest of [s]. *)
Fixpoint oneOf (alts : list string) (s : string) : option (string * string) :=
  match alts with
  | [] => None
  | a :: alts' =>
      match stripPrefix a s with
      | Some rest => Some (a, rest)
      | None => oneOf alts' s
      end
  end.

(** The character class [a-zA-Z0-9]. *)
Definition isAlnum (c : ascii) : bool :=
  let n := nat_of_ascii c in
  (Nat.leb 97 n && Nat.leb n 122) || (Nat.leb 65 n && Nat.leb n 90)
  || (Nat.leb 48 n && Nat.leb n 57).

Fixpoint allAlnum (s : string) : bool :=
  match s with
  | EmptyString => true
  | String c s' => isAlnum c && allAlnum s'
  end.

(** [a-zA-Z0-9]+ up to the end of the text. *)
Definition isIdentifier (s : string) : bool :=
  match s with
  | EmptyString => false
  | String _ _ => allAlnum s
  end.

(** validPath.FindStringSubmatch(path): None is the nil slice; a match is
    the slice of the whole match, the action and the identifier. *)
Definition validPath_FindStringSubmatch (path : string) : option (list string) :=
  rest ← stripPrefix "/" path;
  '(action, rest) ← oneOf ["edit"; "save"; "view"] rest;
  id ← stripPrefix "/" rest;
  if isIdentifier id then Some [path; action; id] else None.

(** A parsed template, run on a page: the chunks it writes to the
    response, in order, and the error that stopped it, if any. *)
Definition Template : Type := PagePtr -> list string * error.

(** Each chunk is one w.Write. *)
Definition writeChunks (chunks : list string) (w : ResponseWriter) : ResponseWriter :=
  foldl (fun w c => Write c w) w chunks.

(** ** The final web stage: handlers behind [makeHandler] *)

Module Validated.
Section Handlers.

(** var templates = template.Must(template.ParseFiles("edit.html",
    "view.html")).  The two files are not in the repository: the parsed
    set is a parameter, looked up by file name; None is a name the set
    does not define. *)
Variable templates : string -> option Template.

(** templates.ExecuteTemplate(w, name, data) *)
Definition ExecuteTemplate (name : string) (data : PagePtr) : M error :=
  modify (record (CExecuteTemplate name data));;
  match templates name with
  | None =>
      mret (Some ("html/template: " +:+ quote +:+ name +:+ quote +:+ " is undefined"))
  | Some t =>
      let '(chunks, err) := t data in
      modify (onResp (writeChunks chunks));;
      mret err
  end.

(** func renderTemplate(w http.ResponseWriter, tmpl string, p *Page) *)
Definition renderTemplate (tmpl : string) (p : PagePtr) : M unit :=
  err ← ExecuteTemplate (tmpl +:+ ".html") p;
  match err with
  | Some e => http_Error e StatusInternalServerError
  | None => mret tt
  end.

(** func getTitle(w http.ResponseWriter, r *http.Request) (string, error) *)
Definition getTitle (r : Request) : M (string * error) :=
  let m := validPath_FindStringSubmatch (URLPath r) in
  match m with
  | None =>
      http_NotFound r;;
      mret (EmptyString, Some "Invalid Page Title")
  | Some m =>
      title ← index m 2;
      mret (title, None)
  end.

(** func viewHandler(w http.ResponseWriter, r *http.Request, title string) *)
Definition viewHandler (r : Request) (title : string) : M unit :=
  Println ("view: " +:+ URLPath r);;
  '(p, err) ← loadPage title;
  (match err with
   | Some _ => http_Redirect r ("/edit/" +:+ title) StatusFound
   | None => mret tt
   end);;
  renderTemplate "view" p.

(** func editHandler(w http.ResponseWriter, r *http.Request, title string) *)
Definition editHandler (r : Request) (title : string) : M unit :=
  '(p, err) ← loadPage title;
  let p := match err with
           | Some _ => Some {| Title := title; Body := [] |}
           | None => p
           end in
  renderTemplate "edit" p.

(** func saveHandler(w http.ResponseWriter, r *http.Request, title string) *)
Definition saveHandler (r : Request) (title : string) : M unit :=
  Println ("save: " +:+ URLPath r);;
  let body := FormValue r "body" in
  let p := {| Title := title; Body := list_byte_of_string body |} in
  err ← save p;
  match err with
  | Some e => http_Error e StatusInternalServerError
  | None => http_Redirect r ("/view/" +:+ title) StatusFound
  end.

(** func makeHandler(fn func(http.ResponseWriter, *http.Request, string))
    http.HandlerFunc *)
Definition makeHandler (fn : Request -> string -> M unit) (r : Request) : M unit :=
  let m := validPath_FindStringSubmatch (URLPath r) in
  match m with
  | None => http_NotFound r
  | Some m =>
      title ← index m 2;
      fn r title
  end.

(** The routes registered by main. *)
Definition viewRoute : Request -> M unit := makeHandler viewHandler.
Definition editRoute : Request -> M unit := makeHandler editHandler.
Definition saveRoute : Request -> M unit := makeHandler saveHandler.

End Handlers.
End Validated.

(** ** The first web stage, wiki.go: titles cut out of the path *)

Module Wiki.
Section Handlers.

(** template.ParseFiles(name), read at every request.  The template
    files are not in the repository: what parsing a name gives, a
    template or the error, is a parameter. *)
Variable ParseFiles : string -> Template + string.

(** func renderTemplate(w http.ResponseWriter, tmpl string, p *Page) *)
Definition renderTemplate (tmpl : string) (p : PagePtr) : M unit :=
  modify (record (CParseFiles (tmpl +:+ ".html")));;
  match ParseFiles (tmpl +:+ ".html") with
  | inr e => http_Error e StatusInternalServerError
  | inl t =>
      modify (record (CExecute p));;
      let '(chunks, err) := t p in
      modify (onResp (writeChunks chunks));;
      match err with
      | Some e => http_Error e StatusInternalServerError
      | None => mret tt
      end
  end.

(** r.URL.Path[len(prefix):] *)
Definition afterPrefix (prefix : string) (r : Request) : M string :=
  match sliceFrom (String.length prefix) (URLPath r) with
  | Some s => mret s
  | None => panic "slice bounds out of range"
  end.

(** func viewHandler(w http.ResponseWriter, r *http.Request) *)
Definition viewHandler (r : Request) : M unit :=
  Println ("view: " +:+ URLPath r);;
  title ← afterPrefix "/view/" r;
  '(p, err) ← loadPage title;
  (match err with
   | Some _ => http_Redirect r ("/edit/" +:+ title) StatusFound
   | None => mret tt
   end);;
  renderTemplate "view" p.

(** func editHandler(w http.ResponseWriter, r *http.Request) *)
Definition editHandler (r : Request) : M unit :=
  Println ("edit: " +:+ URLPath r);;
  title ← afterPrefix "/view/" r;
  '(p, err) ← loadPage title;
  let p := match err with
           | Some _ => Some {| Title := title; Body := [] |}
           | None => p
           end in
  renderTemplate "edit" p.

(** func saveHandler(w http.ResponseWriter, r *http.Request) *)
Definition saveHandler (r : Request) : M unit :=
  Println ("save: " +:+ URLPath r);;
  title ← afterPrefix "/save/" r;
  let body := FormValue r "body" in
  let p := {| Title := title; Body := list_byte_of_string body |} in
  err ← save p;
  match err with
  | Some e => http_Error e StatusInternalServerError
  | None => http_Redirect r ("/view/" +:+ title) StatusFound
  end.

End Handlers.
End Wiki.

(** ** The command-line stage *)

Module Cli.

(** func main(): save TestPage, load it back, print its body. *)
Definition main : M unit :=
  let p1 := {| Title := "TestPage";
               Body := list_byte_of_string "This is a sample page" |} in
  save p1;;
  '(p2, _) ← loadPage "TestPage";
  match p2 with
  | None => panic "invalid memory address or nil pointer dereference"
  | Some p2 => Println (string_of_list_byte (Body p2))
  end.

End Cli.

(** ** Vocabulary of the properties *)

(** A byte in one of the ranges a-z, A-Z, 0-9. *)
Definition LetterOrDigit (c : ascii) : Prop :=
  let n := nat_of_ascii c in
  (97 <= n <= 122)%nat ∨ (65 <= n <= 90)%nat ∨ (48 <= n <= 57)%nat.

(** A string that matches ^[A-Za-z0-9]+$ : not empty, letters and digits
    only. *)
Definition Identifier (s : string) : Prop :=
  s ≠ EmptyString ∧ Forall LetterOrDigit (list_ascii_of_string s).

(** A path of the shape /view/<id>, /edit/<id> or /save/<id>. *)
Definition RoutedPath (path : string) : Prop :=
  ∃ action id,
    (action = "edit" ∨ action = "save" ∨ action = "view")
    ∧ Identifier id
    ∧ path = "/" +:+ action +:+ "/" +:+ id.

(** The files written, in order, among a list of calls. *)
Definition writesOf (cs : list Call) : list (string * list Byte.byte) :=
  omap (fun c => match c with
                 | CWriteFile name data _ => Some (name, data)
                 | _ => None
                 end) cs.

(** The files read, in order, among a list of calls. *)
Definition readsOf (cs : list Call) : list string :=
  omap (fun c => match c with
                 | CReadFile name => Some name
                 | _ => None
                 end) cs.

(** The lines printed, in order, among a list of calls. *)
Definition printsOf (cs : list Call) : list string :=
  omap (fun c => match c with
                 | CPrintln line => Some line
                 | _ => None
                 end) cs.

(** The redirects issued, in order, among a list of calls. *)
Definition redirectsOf (cs : list Call) : list (string * nat) :=
  omap (fun c => match c with
                 | CRedirect url code => Some (url, code)
                 | _ => None
                 end) cs.

(** [responds σ σ' cs]: from σ to σ' only the response changed, what was
    already sent was kept, and the calls [cs] were made. *)
Definition responds (σ σ' : World) (cs : list Call) : Prop :=
  files σ' = files σ
  ∧ writeErr σ' = writeErr σ
  ∧ stdout σ' = stdout σ
  ∧ calls σ' = (calls σ ++ cs)%list
  ∧ ∀ x, wroteHeader (resp σ) = Some x → wroteHeader (resp σ') = Some x.

(** A call that answers with status 500. *)
Definition isServerError (c : Call) : Prop :=
  ∃ e, c = CError e StatusInternalServerError.

(** A world before any request: the given files and refusals, nothing
    printed, a new response, no call made. *)
Definition world (fs : gmap string (list Byte.byte))
    (refuse : string -> option string) : World :=
  {| files := fs; writeErr := refuse; stdout := EmptyString;
     resp := newResponse; calls := [] |}.

(** The world of an empty working directory where every write is
    accepted. *)
Definition emptyDir : World := world ∅ (fun _ => None).

(** The chunks of a template run, one after the other. *)
Definition joined (chunks : list string) : string :=
  foldr String.append EmptyString chunks.

(** The names of the files read or written, in order, among a list of
    calls. *)
Definition storeNames (cs : list Call) : list string :=
  omap (fun c => match c with
                 | CReadFile name => Some name
                 | CWriteFile name _ _ => Some name
                 | _ => None
                 end) cs.

(** A handler that, on title [t], returns without panic and reads or
    writes the file of [t] alone, once. *)
Definition oneAccess (fn : Request → string → M unit) : Prop :=
  ∀ r t σ, ∃ σ' cs,
    fn r t σ = (Done tt, σ')
    ∧ calls σ' = (calls σ ++ cs)%list
    ∧ storeNames cs = [filename t].

(** A request served without panic, where the only file read or written
    is the one named by the validated identifier of the path; a path that
    is not routed touches no file. *)
Definition servedSafely (h : Request → M unit) (r : Request) (σ : World) : Prop :=
  ∃ σ' cs,
    h r σ = (Done tt, σ')
    ∧ calls σ' = (calls σ ++ cs)%list
    ∧ ((¬ RoutedPath (URLPath r) ∧ storeNames cs = [])
       ∨ ∃ action id,
           Identifier id
           ∧ URLPath r = "/" +:+ action +:+ "/" +:+ id
           ∧ storeNames cs = [filename id]).

(** ** Strings *)

#[local] Arguments String.append !s1 s2 : simpl nomatch.

Lemma append_length (s1 s2 : string) :
  String.length (s1 +:+ s2) = (String.length s1 + String.length s2)%nat.
Proof. induction s1 as [|c s1 IH]; simpl; [reflexivity | now rewrite IH]. Qed.

Lemma append_cancel_r (x s1 s2 : string) : s1 +:+ x = s2 +:+ x → s1 = s2.
Proof.
  revert s2. induction s1 as [|c s1 IH]; intros [|d s2] H; simpl in H.
  - reflexivity.
  - apply (f_equal String.length) in H. simpl in H.
    rewrite append_length in H. lia.
  - apply (f_equal String.length) in H. simpl in H.
    rewrite append_length in H. lia.
  - injection H as -> H. f_equal. now apply IH.
Qed.

Lemma stripPrefix_app (p s : string) : stripPrefix p (p +:+ s) = Some s.
Proof.
  induction p as [|c p IH]; simpl; [reflexivity|].
  now rewrite Ascii.eqb_refl.
Qed.

Lemma stripPrefix_Some (p s rest : string) :
  stripPrefix p s = Some rest → s = p +:+ rest.
Proof.
  revert s. induction p as [|c p IH]; intros s H; simpl in *.
  - injection H as ->. reflexivity.
  - destruct s as [|d s]; [discriminate|].
    destruct (Ascii.eqb c d) eqn:E; [|discriminate].
    apply Ascii.eqb_eq in E as ->. now rewrite (IH _ H).
Qed.

Lemma oneOf_Some (alts : list string) (s a rest : string) :
  oneOf alts s = Some (a, rest) → a ∈ alts ∧ s = a +:+ rest.
Proof.
  induction alts as [|b alts IH]; simpl; [discriminate|].
  destruct (stripPrefix b s) as [r|] eqn:E.
  - intros [= <- <-]. split; [left | now apply stripPrefix_Some].
  - intros H. destruct (IH H) as [? ?]. split; [now right | assumption].
Qed.

(** ** The identifier class *)

Lemma isAlnum_spec (c : ascii) : isAlnum c = true ↔ LetterOrDigit c.
Proof.
  unfold isAlnum, LetterOrDigit. cbv zeta.
  rewrite !orb_true_iff, !andb_true_iff, !Nat.leb_le. tauto.
Qed.

Lemma allAlnum_spec (s : string) :
  allAlnum s = true ↔ Forall LetterOrDigit (list_ascii_of_string s).
Proof.
  induction s as [|c s IH]; simpl.
  - split; [constructor | reflexivity].
  - rewrite andb_true_iff, Forall_cons, IH, isAlnum_spec. reflexivity.
Qed.

Lemma isIdentifier_spec (s : string) : isIdentifier s = true ↔ Identifier s.
Proof.
  unfold Identifier. destruct s as [|c s].
  - simpl. split; [discriminate | intros [H _]; now destruct H].
  - unfold isIdentifier. rewrite allAlnum_spec. split.
    + intros H. split; [discriminate | exact H].
    + intros [_ H]. exact H.
Qed.

(** ** The path pattern decides [RoutedPath] and captures the identifier *)

Lemma FindStringSubmatch_routed (action id : string) :
  action = "edit" ∨ action = "save" ∨ action = "view" →
  Identifier id →
  let path := "/" +:+ action +:+ "/" +:+ id in
  validPath_FindStringSubmatch path = Some [path; action; id].
Proof.
  intros Ha Hid path. apply isIdentifier_spec in Hid.
  unfold validPath_FindStringSubmatch, path.
  destruct Ha as [-> | [-> | ->]]; simpl; now rewrite Hid.
Qed.

Lemma FindStringSubmatch_Some (path : string) (m : list string) :
  validPath_FindStringSubmatch path = Some m →
  ∃ action id,
    m = [path; action; id]
    ∧ (action = "edit" ∨ action = "save" ∨ action = "view")
    ∧ Identifier id
    ∧ path = "/" +:+ action +:+ "/" +:+ id.
Proof.
  unfold validPath_FindStringSubmatch, mbind, option_bind. intros H.
  destruct (stripPrefix "/" path) as [rest|] eqn:E1; [|discriminate].
  destruct (oneOf ["edit"; "save"; "view"] rest) as [[action rest']|] eqn:E2;
    [|discriminate].
  destruct (stripPrefix "/" rest') as [id|] eqn:E3; [|discriminate].
  destruct (isIdentifier id) eqn:E4; [|discriminate].
  injection H as <-.
  apply stripPrefix_Some in E1. apply stripPrefix_Some in E3.
  apply oneOf_Some in E2 as [Hin E2].
  exists action, id. repeat split.
  - rewrite !elem_of_cons, elem_of_nil in Hin. tauto.
  - apply isIdentifier_spec in E4. apply E4.
  - apply isIdentifier_spec in E4. apply E4.
  - subst. reflexivity.
Qed.

Lemma FindStringSubmatch_None (path : string) :
  validPath_FindStringSubmatch path = None ↔ ¬ RoutedPath path.
Proof.
  split.
  - intros H (action & id & Ha & Hid & ->).
    pose proof (FindStringSubmatch_routed action id Ha Hid) as H'.
    cbv zeta in H'. congruence.
  - intros H. destruct (validPath_FindStringSubmatch path) as [m|] eqn:E;
      [|reflexivity].
    destruct (FindStringSubmatch_Some _ _ E) as (action & id & _ & Ha & Hid & ->).
    destruct H. now exists action, id.
Qed.

(** ** The response writer: what is sent stays sent *)

Lemma setHeader_sent (k v : string) (w : ResponseWriter) :
  wroteHeader (setHeader k v w) = wroteHeader w.
Proof. reflexivity. Qed.

Lemma WriteHeader_first (code : nat) (w : ResponseWriter) :
  wroteHeader w = None →
  wroteHeader (WriteHeader code w) = Some (code, header w).
Proof. intros H. unfold WriteHeader. now rewrite H. Qed.

Lemma WriteHeader_sent (code : nat) (w : ResponseWriter) x :
  wroteHeader w = Some x → WriteHeader code w = w.
Proof. intros H. unfold WriteHeader. now rewrite H. Qed.

Lemma WriteHeader_keeps (code : nat) (w : ResponseWriter) x :
  wroteHeader w = Some x → wroteHeader (WriteHeader code w) = Some x.
Proof. intros H. now rewrite (WriteHeader_sent _ _ _ H). Qed.

Lemma Write_sent (data : string) (w : ResponseWriter) x :
  wroteHeader w = Some x → wroteHeader (Write data w) = Some x.
Proof. intros H. unfold Write. simpl. now rewrite (WriteHeader_sent _ _ _ H). Qed.

Lemma Write_written (data : string) (w : ResponseWriter) :
  written (Write data w) = written w +:+ data.
Proof. unfold Write, WriteHeader. now destruct (wroteHeader w). Qed.

Lemma writeChunks_sent (chunks : list string) (w : ResponseWriter) x :
  wroteHeader w = Some x → wroteHeader (writeChunks chunks w) = Some x.
Proof.
  unfold writeChunks. revert w.
  induction chunks as [|c chunks IH]; intros w H; simpl; [exact H|].
  apply IH. now apply Write_sent.
Qed.

(** ** Running the monad *)

Ltac run :=
  unfold mbind, M_bind, bind, mret, M_ret, ret, modify, gets, panic.

Lemma bind_Done {A B} (m : M A) (k : A → M B) (σ σ' : World) (a : A) :
  m σ = (Done a, σ') → (m ≫= k) σ = k a σ'.
Proof. intros H. run. now rewrite H. Qed.

Lemma bind_Panic {A B} (m : M A) (k : A → M B) (σ σ' : World) (msg : string) :
  m σ = (Panic msg, σ') → (m ≫= k) σ = (Panic msg, σ').
Proof. intros H. run. now rewrite H. Qed.

Lemma bind_modify {B} (f : World → World) (k : unit → M B) (σ : World) :
  (modify f ≫= k) σ = k tt (f σ).
Proof. reflexivity. Qed.

Lemma bind_ret {A B} (a : A) (k : A → M B) (σ : World) :
  (mret a ≫= k) σ = k a σ.
Proof. reflexivity. Qed.

Lemma http_Error_spec (msg : string) (code : nat) (σ : World) :
  ∃ σ', http_Error msg code σ = (Done tt, σ')
        ∧ responds σ σ' [CError msg code]
        ∧ (wroteHeader (resp σ) = None →
           status σ' = Some code
           ∧ sentHeader "Location" σ' = header (resp σ) !! "Location"
           ∧ written (resp σ') = written (resp σ) +:+ msg +:+ nl).
Proof.
  eexists. split; [reflexivity|]. split.
  - repeat split. intros x H. simpl.
    repeat apply WriteHeader_keeps. exact H.
  - intros H. unfold status, sentHeader. simpl.
    unfold WriteHeader. simpl. rewrite H. simpl.
    rewrite !lookup_insert_ne by discriminate. repeat split.
Qed.

Lemma http_Redirect_spec (r : Request) (url : string) (code : nat) (σ : World) :
  ∃ σ', http_Redirect r url code σ = (Done tt, σ')
        ∧ responds σ σ' [CRedirect url code]
        ∧ (wroteHeader (resp σ) = None →
           status σ' = Some code ∧ sentHeader "Location" σ' = Some url).
Proof.
  unfold http_Redirect. run. simpl.
  destruct (bool_decide (is_Some (header (resp σ) !! "Content-Type")));
    destruct (bool_decide (Method r = "GET"));
    destruct (bool_decide (Method r = "HEAD")); simpl;
    (eexists; split; [reflexivity|]; split;
     [ repeat split; intros x H; simpl;
       repeat apply WriteHeader_keeps; exact H
     | intros H; unfold status, sentHeader, WriteHeader; simpl; rewrite H; simpl;
       rewrite ?lookup_insert_ne by discriminate;
       rewrite lookup_insert_eq; split; reflexivity ]).
Qed.

Lemma responds_refl (σ : World) : responds σ σ [].
Proof. unfold responds. rewrite app_nil_r. auto. Qed.

Lemma responds_trans (σ1 σ2 σ3 : World) (cs1 cs2 : list Call) :
  responds σ1 σ2 cs1 → responds σ2 σ3 cs2 → responds σ1 σ3 (cs1 ++ cs2).
Proof.
  intros (F1 & E1 & O1 & C1 & S1) (F2 & E2 & O2 & C2 & S2).
  unfold responds. rewrite F2, E2, O2, C2, C1, app_assoc. repeat split; auto.
Qed.

Lemma responds_status (σ σ' : World) (cs : list Call) (code : nat) :
  responds σ σ' cs → status σ = Some code → status σ' = Some code.
Proof.
  intros (_ & _ & _ & _ & S) H. unfold status in *.
  destruct (wroteHeader (resp σ)) as [x|] eqn:E; [|discriminate].
  now rewrite (S x eq_refl).
Qed.

Lemma responds_sentHeader (σ σ' : World) (cs : list Call) (k v : string) :
  responds σ σ' cs → sentHeader k σ = Some v → sentHeader k σ' = Some v.
Proof.
  intros (_ & _ & _ & _ & S) H. unfold sentHeader in *.
  destruct (wroteHeader (resp σ)) as [x|] eqn:E; [|discriminate].
  now rewrite (S x eq_refl).
Qed.

(** ** The page store *)

Lemma loadPage_missing (t : string) (σ : World) :
  files σ !! filename t = None →
  loadPage t σ =
    (Done (None, Some ("open " +:+ filename t +:+ ": no such file or directory")),
     record (CReadFile (filename t)) σ).
Proof. intros H. unfold loadPage, ReadFile. run. now rewrite H. Qed.

Lemma loadPage_found (t : string) (body : list Byte.byte) (σ : World) :
  files σ !! filename t = Some body →
  loadPage t σ =
    (Done (Some {| Title := t; Body := body |}, None),
     record (CReadFile (filename t)) σ).
Proof. intros H. unfold loadPage, ReadFile. run. now rewrite H. Qed.

Lemma save_ok (p : Page) (σ : World) :
  writeErr σ (filename (Title p)) = None →
  save p σ =
    (Done None,
     setFiles (<[filename (Title p) := Body p]> (files σ))
       (record (CWriteFile (filename (Title p)) (Body p) perm0600)
          (printed ("saving" +:+ filename (Title p)) σ))).
Proof. intros H. unfold save, Println, WriteFile. run. simpl. now rewrite H. Qed.

Lemma save_refused (p : Page) (e : string) (σ : World) :
  writeErr σ (filename (Title p)) = Some e →
  save p σ =
    (Done (Some e),
     record (CWriteFile (filename (Title p)) (Body p) perm0600)
       (printed ("saving" +:+ filename (Title p)) σ)).
Proof. intros H. unfold save, Println, WriteFile. run. simpl. now rewrite H. Qed.

Lemma filename_inj (t1 t2 : string) : filename t1 = filename t2 → t1 = t2.
Proof. apply append_cancel_r. Qed.

(** ** Rendering *)

Lemma responds_step (c : Call) (f : ResponseWriter → ResponseWriter) (σ : World) :
  (∀ w x, wroteHeader w = Some x → wroteHeader (f w) = Some x) →
  responds σ (onResp f (record c σ)) [c].
Proof. intros H. repeat split. intros x Hx. simpl. now apply H. Qed.

Lemma responds_record (c : Call) (σ : World) : responds σ (record c σ) [c].
Proof. repeat split. auto. Qed.

Lemma Validated_renderTemplate_spec (templates : string → option Template)
    (tmpl : string) (p : PagePtr) (σ : World) :
  ∃ σ' cs,
    Validated.renderTemplate templates tmpl p σ = (Done tt, σ')
    ∧ responds σ σ' (CExecuteTemplate (tmpl +:+ ".html") p :: cs)
    ∧ Forall isServerError cs.
Proof.
  unfold Validated.renderTemplate, Validated.ExecuteTemplate. run. simpl.
  destruct (templates (tmpl +:+ ".html")) as [t|].
  - destruct (t p) as [chunks [e|]]; simpl.
    + destruct (http_Error_spec e StatusInternalServerError
                  (onResp (writeChunks chunks)
                     (record (CExecuteTemplate (tmpl +:+ ".html") p) σ)))
        as (σ' & -> & R & _).
      exists σ', [CError e StatusInternalServerError]. split; [reflexivity|]. split.
      * eapply (responds_trans _ _ _ [_] [_]); [|exact R].
        apply responds_step. intros w x. apply writeChunks_sent.
      * repeat constructor. now exists e.
    + eexists _, []. split; [reflexivity|]. split; [|constructor].
      apply responds_step. intros w x. apply writeChunks_sent.
  - match goal with |- context [http_Error ?e ?c ?s] =>
      destruct (http_Error_spec e c s) as (σ' & -> & R & _);
      exists σ', [CError e c] end.
    split; [reflexivity|]. split.
    + eapply (responds_trans _ _ _ [_] [_]); [|exact R]. apply responds_record.
    + repeat constructor. eexists. reflexivity.
Qed.

Lemma Wiki_renderTemplate_spec (ParseFiles : string → Template + string)
    (tmpl : string) (p : PagePtr) (σ : World) :
  ∃ σ' cs,
    Wiki.renderTemplate ParseFiles tmpl p σ = (Done tt, σ')
    ∧ responds σ σ' (CParseFiles (tmpl +:+ ".html") :: cs).
Proof.
  unfold Wiki.renderTemplate. run. simpl.
  destruct (ParseFiles (tmpl +:+ ".html")) as [t|e].
  - destruct (t p) as [chunks [e|]]; simpl.
    + match goal with |- context [http_Error ?e ?c ?s] =>
        destruct (http_Error_spec e c s) as (σ' & -> & R & _);
        exists σ', [CExecute p; CError e c] end.
      split; [reflexivity|].
      eapply (responds_trans _ _ _ [_] [_; _]); [apply responds_record|].
      eapply (responds_trans _ _ _ [_] [_]); [|exact R].
      apply responds_step. intros w x. apply writeChunks_sent.
    + eexists _, [CExecute p]. split; [reflexivity|].
      eapply (responds_trans _ _ _ [_] [_]); [apply responds_record|].
      apply responds_step. intros w x. apply writeChunks_sent.
  - match goal with |- context [http_Error ?e ?c ?s] =>
      destruct (http_Error_spec e c s) as (σ' & -> & R & _);
      exists σ', [CError e c] end.
    split; [reflexivity|].
    eapply (responds_trans _ _ _ [_] [_]); [apply responds_record | exact R].
Qed.

(** ** Calls, filtered *)

Lemma writesOf_app (cs1 cs2 : list Call) :
  writesOf (cs1 ++ cs2) = (writesOf cs1 ++ writesOf cs2)%list.
Proof. apply omap_app. Qed.

Lemma redirectsOf_app (cs1 cs2 : list Call) :
  redirectsOf (cs1 ++ cs2) = (redirectsOf cs1 ++ redirectsOf cs2)%list.
Proof. apply omap_app. Qed.

Lemma printsOf_app (cs1 cs2 : list Call) :
  printsOf (cs1 ++ cs2) = (printsOf cs1 ++ printsOf cs2)%list.
Proof. apply omap_app. Qed.

Lemma writesOf_errors (cs : list Call) : Forall isServerError cs → writesOf cs = [].
Proof.
  induction 1 as [|c cs [e ->] _ IH]; [reflexivity|]. exact IH.
Qed.

(** ** The wrapper on a routed path *)

Lemma makeHandler_routed (fn : Request → string → M unit) (r : Request)
    (action id : string) (σ : World) :
  action = "edit" ∨ action = "save" ∨ action = "view" →
  Identifier id →
  URLPath r = "/" +:+ action +:+ "/" +:+ id →
  Validated.makeHandler fn r σ = fn r id σ.
Proof.
  intros Ha Hid Hp. unfold Validated.makeHandler.
  pose proof (FindStringSubmatch_routed action id Ha Hid) as Hm.
  cbv zeta in Hm. rewrite Hp, Hm. unfold index. simpl. run.
  reflexivity.
Qed.

(** ** The view handler on a missing page, in both web stages *)

Lemma Validated_viewHandler_missing (templates : string → option Template)
    (r : Request) (t : string) (σ : World) :
  files σ !! filename t = None →
  let σ1 := record (CReadFile (filename t)) (printed ("view: " +:+ URLPath r) σ) in
  ∃ σ2 σ3 cs,
    http_Redirect r ("/edit/" +:+ t) StatusFound σ1 = (Done tt, σ2)
    ∧ responds σ1 σ2 [CRedirect ("/edit/" +:+ t) StatusFound]
    ∧ (wroteHeader (resp σ) = None →
       status σ2 = Some StatusFound
       ∧ sentHeader "Location" σ2 = Some ("/edit/" +:+ t))
    ∧ Validated.renderTemplate templates "view" None σ2 = (Done tt, σ3)
    ∧ responds σ2 σ3 (CExecuteTemplate "view.html" None :: cs)
    ∧ Forall isServerError cs
    ∧ Validated.viewHandler templates r t σ = (Done tt, σ3).
Proof.
  intros Hf σ1.
  destruct (http_Redirect_spec r ("/edit/" +:+ t) StatusFound σ1)
    as (σ2 & E2 & R2 & S2).
  destruct (Validated_renderTemplate_spec templates "view" None σ2)
    as (σ3 & cs & E3 & R3 & F3).
  exists σ2, σ3, cs.
  split; [exact E2|]. split; [exact R2|]. split; [exact S2|].
  split; [exact E3|]. split; [exact R3|]. split; [exact F3|].
  unfold Validated.viewHandler, Println. rewrite bind_modify.
  erewrite bind_Done by (apply loadPage_missing; exact Hf). cbv beta iota.
  erewrite bind_Done by exact E2. exact E3.
Qed.

Lemma afterPrefix_Some (prefix : string) (r : Request) (t : string) (σ : World) :
  sliceFrom (String.length prefix) (URLPath r) = Some t →
  Wiki.afterPrefix prefix r σ = (Done t, σ).
Proof. intros H. unfold Wiki.afterPrefix. now rewrite H. Qed.

Lemma afterPrefix_None (prefix : string) (r : Request) (σ : World) :
  sliceFrom (String.length prefix) (URLPath r) = None →
  Wiki.afterPrefix prefix r σ = (Panic "slice bounds out of range", σ).
Proof. intros H. unfold Wiki.afterPrefix. now rewrite H. Qed.

Lemma Wiki_viewHandler_missing (ParseFiles : string → Template + string)
    (r : Request) (t : string) (σ : World) :
  sliceFrom (String.length "/view/") (URLPath r) = Some t →
  files σ !! filename t = None →
  let σ1 := record (CReadFile (filename t)) (printed ("view: " +:+ URLPath r) σ) in
  ∃ σ2 σ3 cs,
    http_Redirect r ("/edit/" +:+ t) StatusFound σ1 = (Done tt, σ2)
    ∧ responds σ1 σ2 [CRedirect ("/edit/" +:+ t) StatusFound]
    ∧ Wiki.renderTemplate ParseFiles "view" None σ2 = (Done tt, σ3)
    ∧ responds σ2 σ3 (CParseFiles "view.html" :: cs)
    ∧ Wiki.viewHandler ParseFiles r σ = (Done tt, σ3).
Proof.
  intros Hs Hf σ1.
  destruct (http_Redirect_spec r ("/edit/" +:+ t) StatusFound σ1)
    as (σ2 & E2 & R2 & _).
  destruct (Wiki_renderTemplate_spec ParseFiles "view" None σ2)
    as (σ3 & cs & E3 & R3).
  exists σ2, σ3, cs.
  split; [exact E2|]. split; [exact R2|]. split; [exact E3|]. split; [exact R3|].
  unfold Wiki.viewHandler, Println. rewrite bind_modify.
  erewrite bind_Done by (apply afterPrefix_Some; exact Hs).
  erewrite bind_Done by (apply loadPage_missing; exact Hf). cbv beta iota.
  erewrite bind_Done by exact E2. exact E3.
Qed.

(** * The properties *)

(** C1. Round trip of the page store.  For every title t that matches
    ^[A-Za-z0-9]+$ and every body b: where the operating system accepts
    the write of t.txt, save of the Page with title t and body b returns
    a nil error and leaves b in t.txt; and after any save of that Page
    that returned a nil error, loadPage(t) succeeds (nil error) and
    returns a Page with title t and body exactly b. *)
Theorem save_loadPage_roundtrip (t : string) (b : list Byte.byte) (σ : World) :
  Identifier t →
  let p := {| Title := t; Body := b |} in
  (writeErr σ (filename t) = None → ∃ σ1, save p σ = (Done None, σ1))
  ∧ ∀ σ1, save p σ = (Done None, σ1) →
          files σ1 !! filename t = Some b
          ∧ loadPage t σ1 = (Done (Some p, None), record (CReadFile (filename t)) σ1).
Proof.
  intros _ p. split.
  - intros E. eexists. apply (save_ok p σ E).
  - intros σ1 Hs.
    assert (Hf : files σ1 !! filename t = Some b).
    { destruct (writeErr σ (filename t)) as [e|] eqn:E.
      - rewrite (save_refused p e) in Hs by exact E. discriminate.
      - rewrite (save_ok p) in Hs by exact E. injection Hs as <-.
        simpl. apply lookup_insert_eq. }
    split; [exact Hf|]. now apply loadPage_found.
Qed.

Lemma save_loadPage_roundtrip_witness :
  let b := list_byte_of_string "Hello" in
  let p := {| Title := "Alpha"; Body := b |} in
  let σ1 := snd (save p emptyDir) in
  save p emptyDir = (Done None, σ1)
  ∧ files σ1 !! filename "Alpha" = Some b
  ∧ loadPage "Alpha" σ1 = (Done (Some p, None), record (CReadFile (filename "Alpha")) σ1).
Proof.
  intros b p σ1.
  destruct (save_loadPage_roundtrip "Alpha" b emptyDir) as [_ H].
  - apply isIdentifier_spec. reflexivity.
  - split; [reflexivity|]. apply H. reflexivity.
Defined.

(** C2. Rejection at the wrapper.  For every request whose path is not of
    the shape /view/<id>, /edit/<id> or /save/<id> with <id> matching
    ^[A-Za-z0-9]+$, and for every inner handler fn, the handler made by
    makeHandler does exactly what http.NotFound does and returns: the
    response has status 404, the only call made is that error response,
    fn is never entered, and no file is read or written. *)
Theorem makeHandler_rejects (fn : Request → string → M unit) (r : Request)
    (σ : World) :
  ¬ RoutedPath (URLPath r) →
  resp σ = newResponse →
  Validated.makeHandler fn r σ = http_NotFound r σ
  ∧ ∃ σ',
      Validated.makeHandler fn r σ = (Done tt, σ')
      ∧ status σ' = Some StatusNotFound
      ∧ calls σ' = (calls σ ++ [CError "404 page not found" StatusNotFound])%list
      ∧ readsOf (calls σ') = readsOf (calls σ)
      ∧ writesOf (calls σ') = writesOf (calls σ)
      ∧ files σ' = files σ.
Proof.
  intros Hp Hr. apply FindStringSubmatch_None in Hp.
  assert (E : Validated.makeHandler fn r σ = http_NotFound r σ).
  { unfold Validated.makeHandler. now rewrite Hp. }
  split; [exact E|]. rewrite E. unfold http_NotFound.
  destruct (http_Error_spec "404 page not found" StatusNotFound σ)
    as (σ' & -> & (F & _ & _ & C & _) & S).
  exists σ'. split; [reflexivity|].
  destruct S as (S & _); [now rewrite Hr|].
  split; [exact S|]. split; [exact C|].
  rewrite C. unfold readsOf, writesOf. rewrite !omap_app. simpl.
  rewrite !app_nil_r. auto.
Qed.

Lemma makeHandler_rejects_witness :
  let r := {| Method := "GET"; URLPath := "/edit/../../etc/passwd"; Form := ∅ |} in
  let σ := world {[ "Alpha.txt" := list_byte_of_string "Hello" ]} (fun _ => None) in
  Validated.makeHandler Validated.saveHandler r σ = http_NotFound r σ
  ∧ ∃ σ',
      Validated.makeHandler Validated.saveHandler r σ = (Done tt, σ')
      ∧ status σ' = Some StatusNotFound
      ∧ calls σ' = (calls σ ++ [CError "404 page not found" StatusNotFound])%list
      ∧ readsOf (calls σ') = readsOf (calls σ)
      ∧ writesOf (calls σ') = writesOf (calls σ)
      ∧ files σ' = files σ.
Proof.
  intros r σ. apply (makeHandler_rejects Validated.saveHandler r σ).
  - apply FindStringSubmatch_None. reflexivity.
  - reflexivity.
Defined.

(** C3. Viewing a page that does not exist.  For every title t matching
    ^[A-Za-z0-9]+$ whose file t.txt does not exist, the request for
    /view/t is answered with status 302 and Location /edit/t, the files
    are left as they were and no file is written. *)
Theorem view_missing_redirects (templates : string → option Template)
    (r : Request) (t : string) (σ : World) :
  Identifier t →
  URLPath r = "/view/" +:+ t →
  files σ !! filename t = None →
  resp σ = newResponse →
  ∃ σ',
    Validated.viewRoute templates r σ = (Done tt, σ')
    ∧ status σ' = Some StatusFound
    ∧ sentHeader "Location" σ' = Some ("/edit/" +:+ t)
    ∧ files σ' = files σ
    ∧ writesOf (calls σ') = writesOf (calls σ).
Proof.
  intros Hid Hp Hf Hr. unfold Validated.viewRoute.
  rewrite (makeHandler_routed _ r "view" t) by (auto; exact Hp).
  destruct (Validated_viewHandler_missing templates r t σ Hf)
    as (σ2 & σ3 & cs & _ & R2 & S2 & _ & R3 & F3 & ->).
  exists σ3. split; [reflexivity|].
  destruct S2 as [S L]; [now rewrite Hr|].
  split; [exact (responds_status _ _ _ _ R3 S)|].
  split; [exact (responds_sentHeader _ _ _ _ _ R3 L)|].
  destruct R2 as (F2 & _ & _ & C2 & _). destruct R3 as (F3' & _ & _ & C3 & _).
  split; [now rewrite F3', F2|].
  rewrite C3, C2. simpl. rewrite !writesOf_app. simpl.
  rewrite (writesOf_errors _ F3), !app_nil_r. reflexivity.
Qed.

Lemma view_missing_redirects_witness :
  let templates := fun _ : string =>
    Some (fun p : PagePtr =>
            match p with
            | Some pg => ([Title pg], None)
            | None => ([], Some "nil pointer evaluating *main.Page.Title")
            end) in
  let r := {| Method := "GET"; URLPath := "/view/Beta"; Form := ∅ |} in
  let σ := world ∅ (fun _ => None) in
  ∃ σ',
    Validated.viewRoute templates r σ = (Done tt, σ')
    ∧ status σ' = Some StatusFound
    ∧ sentHeader "Location" σ' = Some "/edit/Beta"
    ∧ files σ' = files σ
    ∧ writesOf (calls σ') = writesOf (calls σ).
Proof.
  intros templates r σ.
  apply (view_missing_redirects templates r "Beta" σ).
  - apply isIdentifier_spec. reflexivity.
  - reflexivity.
  - reflexivity.
  - reflexivity.
Defined.

(** C4. Editing a page that does not exist.  For every title t matching
    ^[A-Za-z0-9]+$ whose file t.txt does not exist, the request for
    /edit/t builds, in memory only, the Page with title t and empty body
    and renders the edit template on it: after the failed read the
    handler is exactly renderTemplate("edit") on that page, the template
    edit.html is executed on it, what it writes is the response, no file
    is written and the files are left as they were. *)
Theorem edit_missing_renders_empty (templates : string → option Template)
    (r : Request) (t : string) (σ : World) :
  Identifier t →
  URLPath r = "/edit/" +:+ t →
  files σ !! filename t = None →
  let p := {| Title := t; Body := [] |} in
  Validated.editRoute templates r σ =
    Validated.renderTemplate templates "edit" (Some p)
      (record (CReadFile (filename t)) σ)
  ∧ ∃ σ' cs,
      Validated.editRoute templates r σ = (Done tt, σ')
      ∧ calls σ' =
          (calls σ ++ [CReadFile (filename t);
                       CExecuteTemplate "edit.html" (Some p)] ++ cs)%list
      ∧ Forall isServerError cs
      ∧ writesOf (calls σ') = writesOf (calls σ)
      ∧ files σ' = files σ
      ∧ ∀ tpl chunks,
          templates "edit.html" = Some tpl →
          tpl (Some p) = (chunks, None) →
          cs = [] ∧ resp σ' = writeChunks chunks (resp σ).
Proof.
  intros Hid Hp Hf p. unfold Validated.editRoute.
  rewrite (makeHandler_routed _ r "edit" t) by (auto; exact Hp).
  assert (E : Validated.editHandler templates r t σ =
              Validated.renderTemplate templates "edit" (Some p)
                (record (CReadFile (filename t)) σ)).
  { unfold Validated.editHandler.
    erewrite bind_Done by (apply loadPage_missing; exact Hf). reflexivity. }
  split; [exact E|]. rewrite E.
  destruct (Validated_renderTemplate_spec templates "edit" (Some p)
              (record (CReadFile (filename t)) σ))
    as (σ' & cs & E' & (F & _ & _ & C & _) & Fe).
  exists σ', cs. split; [exact E'|].
  assert (C' : calls σ' =
    (calls σ ++ [CReadFile (filename t);
                 CExecuteTemplate "edit.html" (Some p)] ++ cs)%list).
  { rewrite C. simpl. rewrite <- app_assoc. reflexivity. }
  split; [exact C'|]. split; [exact Fe|]. split.
  { rewrite C', !writesOf_app. simpl.
    rewrite (writesOf_errors _ Fe), app_nil_r. reflexivity. }
  split; [exact F|].
  intros tpl chunks Ht Hc.
  unfold Validated.renderTemplate, Validated.ExecuteTemplate in E'.
  change ("edit" +:+ ".html") with "edit.html" in E'.
  rewrite Ht, Hc in E'. revert E'. run. simpl.
  intros [= <-]. simpl in C.
  apply (f_equal (drop (length (calls σ)))) in C.
  rewrite <- !app_assoc, !drop_app_length in C. simpl in C.
  split; [|reflexivity]. now injection C as <-.
Qed.

Lemma edit_missing_renders_empty_witness :
  let templates := fun _ : string =>
    Some (fun p : PagePtr =>
            match p with
            | Some pg => ([Title pg; string_of_list_byte (Body pg)], None)
            | None => ([], Some "nil pointer evaluating *main.Page.Title")
            end) in
  let r := {| Method := "GET"; URLPath := "/edit/Beta"; Form := ∅ |} in
  let σ := world ∅ (fun _ => None) in
  let p := {| Title := "Beta"; Body := [] |} in
  Validated.editRoute templates r σ =
    Validated.renderTemplate templates "edit" (Some p)
      (record (CReadFile (filename "Beta")) σ)
  ∧ ∃ σ' cs,
      Validated.editRoute templates r σ = (Done tt, σ')
      ∧ calls σ' =
          (calls σ ++ [CReadFile (filename "Beta");
                       CExecuteTemplate "edit.html" (Some p)] ++ cs)%list
      ∧ Forall isServerError cs
      ∧ writesOf (calls σ') = writesOf (calls σ)
      ∧ files σ' = files σ
      ∧ ∀ tpl chunks,
          templates "edit.html" = Some tpl →
          tpl (Some p) = (chunks, None) →
          cs = [] ∧ resp σ' = writeChunks chunks (resp σ).
Proof.
  intros templates r σ p.
  apply (edit_missing_renders_empty templates r "Beta" σ).
  - apply isIdentifier_spec. reflexivity.
  - reflexivity.
  - reflexivity.
Defined.

(** C5. Saving.  For every title t matching ^[A-Za-z0-9]+$ and every
    submitted body, the request for /save/t makes exactly one write, of
    the body to t.txt.  When the write succeeds the file holds the body and
    the answer is status 302 with Location /view/t.  When the write fails
    with error e the answer is status 500 with body e (and a line feed),
    no redirect is issued, no Location is sent and the write is not
    tried again. *)
Theorem save_redirects_or_reports (r : Request) (t : string) (σ : World) :
  Identifier t →
  URLPath r = "/save/" +:+ t →
  resp σ = newResponse →
  let body := list_byte_of_string (FormValue r "body") in
  ∃ σ',
    Validated.saveRoute r σ = (Done tt, σ')
    ∧ writesOf (calls σ') = (writesOf (calls σ) ++ [(filename t, body)])%list
    ∧ match writeErr σ (filename t) with
      | None =>
          files σ' = <[filename t := body]> (files σ)
          ∧ status σ' = Some StatusFound
          ∧ sentHeader "Location" σ' = Some ("/view/" +:+ t)
      | Some e =>
          files σ' = files σ
          ∧ status σ' = Some StatusInternalServerError
          ∧ written (resp σ') = e +:+ nl
          ∧ redirectsOf (calls σ') = redirectsOf (calls σ)
          ∧ sentHeader "Location" σ' = None
      end.
Proof.
  intros Hid Hp Hr body. unfold Validated.saveRoute.
  rewrite (makeHandler_routed _ r "save" t) by (auto; exact Hp).
  unfold Validated.saveHandler, Println. rewrite bind_modify.
  fold body.
  destruct (writeErr σ (filename t)) as [e|] eqn:E.
  - erewrite bind_Done by (apply save_refused; exact E). cbv beta iota.
    match goal with |- context [http_Error ?e ?c ?s] =>
      destruct (http_Error_spec e c s) as (σ' & -> & (F & _ & _ & C & _) & S)
    end.
    destruct S as (S & L & W); [simpl; now rewrite Hr|].
    exists σ'. split; [reflexivity|].
    simpl in C, F, L, W. rewrite Hr in L, W. simpl in W.
    rewrite C, !writesOf_app, !redirectsOf_app. simpl.
    rewrite !app_nil_r.
    repeat split; auto.
  - erewrite bind_Done by (apply save_ok; exact E). cbv beta iota.
    match goal with |- context [http_Redirect ?r ?u ?c ?s] =>
      destruct (http_Redirect_spec r u c s) as (σ' & -> & (F & _ & _ & C & _) & S)
    end.
    destruct S as (S & L); [simpl; now rewrite Hr|].
    exists σ'. split; [reflexivity|].
    simpl in C, F. rewrite C, !writesOf_app. simpl.
    rewrite !app_nil_r. auto.
Qed.

Lemma save_redirects_or_reports_witness :
  let r := {| Method := "POST"; URLPath := "/save/Alpha";
              Form := {[ "body" := ["Hello"] ]} |} in
  let σ := world ∅ (fun name => if String.eqb name "Alpha.txt"
                                then Some "open Alpha.txt: permission denied"
                                else None) in
  ∃ σ',
    Validated.saveRoute r σ = (Done tt, σ')
    ∧ writesOf (calls σ') = [("Alpha.txt", list_byte_of_string "Hello")]
    ∧ files σ' = ∅
    ∧ status σ' = Some StatusInternalServerError
    ∧ written (resp σ') = "open Alpha.txt: permission denied" +:+ nl
    ∧ redirectsOf (calls σ') = []
    ∧ sentHeader "Location" σ' = None.
Proof.
  intros r σ.
  destruct (save_redirects_or_reports r "Alpha" σ) as (σ' & E & W & H).
  - apply isIdentifier_spec. reflexivity.
  - reflexivity.
  - reflexivity.
  - exists σ'. split; [exact E|]. split; [exact W|]. exact H.
Defined.

(** C6, as stated, fails on loadPage: loading Alpha from the empty
    directory prints no line at all, so no trace record with the kind of
    the operation and the key Alpha.txt is emitted. *)
Lemma loadPage_emits_no_trace :
  ¬ (∃ line, CPrintln line ∈ calls (snd (loadPage "Alpha" emptyDir)))
  ∧ stdout (snd (loadPage "Alpha" emptyDir)) = stdout emptyDir.
Proof.
  split; [|reflexivity].
  intros [line H]. vm_compute in H.
  apply list_elem_of_singleton in H. discriminate.
Qed.

(** C6, amended.  Every save prints one line, the word saving followed by
    the storage key, before it writes; the line changes neither the
    result nor the files: save is the write run in the world where the
    line was printed, with the result and the files the write alone would
    give.  loadPage prints nothing: it leaves standard output and the
    printed lines as they were, and its only call is the read. *)
Theorem save_traces_loadPage_silent (p : Page) (t : string) (σ : World) :
  let key := filename (Title p) in
  let write := WriteFile key (Body p) perm0600 in
  (save p σ = write (printed ("saving" +:+ key) σ)
   ∧ fst (save p σ) = fst (write σ)
   ∧ files (snd (save p σ)) = files (snd (write σ))
   ∧ stdout (snd (save p σ)) = stdout σ +:+ "saving" +:+ key +:+ nl
   ∧ printsOf (calls (snd (save p σ)))
     = (printsOf (calls σ) ++ ["saving" +:+ key])%list)
  ∧ (stdout (snd (loadPage t σ)) = stdout σ
     ∧ calls (snd (loadPage t σ)) = (calls σ ++ [CReadFile (filename t)])%list
     ∧ printsOf (calls (snd (loadPage t σ))) = printsOf (calls σ)).
Proof.
  intros key write. split.
  - assert (E : save p σ = write (printed ("saving" +:+ key) σ)) by reflexivity.
    split; [exact E|]. rewrite E. unfold write, WriteFile. simpl.
    destruct (writeErr σ key); simpl;
      rewrite !printsOf_app; simpl; rewrite app_nil_r; auto.
  - unfold loadPage, ReadFile. run.
    destruct (files σ !! filename t); simpl;
      rewrite printsOf_app; simpl; rewrite app_nil_r; auto.
Qed.

(** C7. The storage key of a title is the title followed by .txt; the
    mapping is a total function, and on titles that match ^[A-Za-z0-9]+$
    it is injective: equal keys come from equal titles, and saving under
    one title never touches the file of a different one. *)
Theorem filename_injective (t1 t2 : string) :
  Identifier t1 →
  Identifier t2 →
  filename t1 = t1 +:+ ".txt"
  ∧ (filename t1 = filename t2 → t1 = t2)
  ∧ (t1 ≠ t2 →
     ∀ b σ, files (snd (save {| Title := t1; Body := b |} σ)) !! filename t2
            = files σ !! filename t2).
Proof.
  intros _ _. split; [reflexivity|]. split; [apply filename_inj|].
  intros Hne b σ. destruct (writeErr σ (filename t1)) as [e|] eqn:E.
  - rewrite (save_refused _ e) by exact E. reflexivity.
  - rewrite save_ok by exact E. simpl. apply lookup_insert_ne.
    intros H. apply Hne. now apply filename_inj.
Qed.

Lemma filename_injective_witness :
  filename "Alpha" = "Alpha" +:+ ".txt"
  ∧ (filename "Alpha" = filename "Beta" → "Alpha" = "Beta")
  ∧ ("Alpha" ≠ "Beta" →
     ∀ b σ, files (snd (save {| Title := "Alpha"; Body := b |} σ)) !! filename "Beta"
            = files σ !! filename "Beta").
Proof.
  apply (filename_injective "Alpha" "Beta");
    apply isIdentifier_spec; reflexivity.
Defined.

(** C8. The view handler does not return after the redirect.  When
    loadPage fails for the title, in the final stage and in wiki.go
    alike, the handler first issues the redirect to /edit/<title> with
    status 302 and then is exactly renderTemplate("view") on the nil Page
    run on the response the redirect was written to: the call that
    follows the redirect is the execution of view.html on nil (in
    wiki.go, the parsing of view.html that renderTemplate starts with). *)
Theorem view_missing_renders_after_redirect
    (templates : string → option Template)
    (ParseFiles : string → Template + string)
    (r : Request) (t : string) (σ : World) :
  files σ !! filename t = None →
  let σ1 := record (CReadFile (filename t)) (printed ("view: " +:+ URLPath r) σ) in
  ∃ σ2,
    http_Redirect r ("/edit/" +:+ t) StatusFound σ1 = (Done tt, σ2)
    ∧ (resp σ = newResponse → status σ2 = Some StatusFound)
    ∧ (Validated.viewHandler templates r t σ
         = Validated.renderTemplate templates "view" None σ2
       ∧ ∃ cs, calls (snd (Validated.viewHandler templates r t σ))
               = (calls σ1 ++ [CRedirect ("/edit/" +:+ t) StatusFound;
                               CExecuteTemplate "view.html" None] ++ cs)%list)
    ∧ (sliceFrom (String.length "/view/") (URLPath r) = Some t →
       Wiki.viewHandler ParseFiles r σ
         = Wiki.renderTemplate ParseFiles "view" None σ2
       ∧ ∃ cs, calls (snd (Wiki.viewHandler ParseFiles r σ))
               = (calls σ1 ++ [CRedirect ("/edit/" +:+ t) StatusFound;
                               CParseFiles "view.html"] ++ cs)%list).
Proof.
  intros Hf σ1.
  destruct (Validated_viewHandler_missing templates r t σ Hf)
    as (σ2 & σ3 & cs & E2 & R2 & S2 & E3 & R3 & _ & Ev).
  fold σ1 in E2, R2. exists σ2. split; [exact E2|]. split.
  { intros Hr. apply S2. now rewrite Hr. }
  split.
  - split; [now rewrite Ev, E3|]. exists cs. rewrite Ev. simpl.
    destruct R2 as (_ & _ & _ & C2 & _). destruct R3 as (_ & _ & _ & C3 & _).
    rewrite C3, C2, <- app_assoc. reflexivity.
  - intros Hs.
    destruct (Wiki_viewHandler_missing ParseFiles r t σ Hs Hf)
      as (σ2' & σ3' & cs' & E2' & R2' & E3' & R3' & Ev').
    fold σ1 in E2', R2'. rewrite E2 in E2'. injection E2' as <-.
    split; [now rewrite Ev', E3'|]. exists cs'. rewrite Ev'. simpl.
    destruct R2' as (_ & _ & _ & C2 & _). destruct R3' as (_ & _ & _ & C3 & _).
    rewrite C3, C2, <- app_assoc. reflexivity.
Qed.

Lemma view_missing_renders_after_redirect_witness :
  let tpl : Template := fun p =>
    match p with
    | Some pg => ([Title pg], None)
    | None => ([], Some "nil pointer evaluating *main.Page.Title")
    end in
  let templates := fun _ : string => Some tpl in
  let ParseFiles := fun _ : string => @inl Template string tpl in
  let r := {| Method := "GET"; URLPath := "/view/Beta"; Form := ∅ |} in
  let σ1 := record (CReadFile "Beta.txt") (printed "view: /view/Beta" emptyDir) in
  ∃ σ2,
    http_Redirect r "/edit/Beta" StatusFound σ1 = (Done tt, σ2)
    ∧ (resp emptyDir = newResponse → status σ2 = Some StatusFound)
    ∧ (Validated.viewHandler templates r "Beta" emptyDir
         = Validated.renderTemplate templates "view" None σ2
       ∧ ∃ cs, calls (snd (Validated.viewHandler templates r "Beta" emptyDir))
               = (calls σ1 ++ [CRedirect "/edit/Beta" StatusFound;
                               CExecuteTemplate "view.html" None] ++ cs)%list)
    ∧ (sliceFrom (String.length "/view/") (URLPath r) = Some "Beta" →
       Wiki.viewHandler ParseFiles r emptyDir
         = Wiki.renderTemplate ParseFiles "view" None σ2
       ∧ ∃ cs, calls (snd (Wiki.viewHandler ParseFiles r emptyDir))
               = (calls σ1 ++ [CRedirect "/edit/Beta" StatusFound;
                               CParseFiles "view.html"] ++ cs)%list).
Proof.
  intros tpl templates ParseFiles r σ1.
  apply (view_missing_renders_after_redirect templates ParseFiles r "Beta" emptyDir).
  reflexivity.
Defined.

(** C9. loadPage keeps the requested title.  loadPage(t) always returns,
    after the one read of t.txt, in one of two ways: the file exists and
    the result is a Page whose Title is t itself and whose Body is the
    content of the file, with a nil error; or the file does not exist and
    the result is the nil Page with a non-nil error.  So a nil error
    comes with Title = t, and a non-nil error with the nil Page. *)
Theorem loadPage_title_or_nil (t : string) (σ : World) :
  ((∃ body, files σ !! filename t = Some body
            ∧ loadPage t σ = (Done (Some {| Title := t; Body := body |}, None),
                              record (CReadFile (filename t)) σ))
   ∨ (∃ e, files σ !! filename t = None
           ∧ loadPage t σ = (Done (None, Some e),
                             record (CReadFile (filename t)) σ)))
  ∧ (∀ p, fst (loadPage t σ) = Done (p, None) →
          ∃ pg, p = Some pg ∧ Title pg = t)
  ∧ (∀ p e, fst (loadPage t σ) = Done (p, Some e) → p = None).
Proof.
  destruct (files σ !! filename t) as [body|] eqn:E.
  - rewrite (loadPage_found t body σ E). split; [left; eauto|]. split.
    + intros p [= <-]. eauto.
    + intros p e [=].
  - rewrite (loadPage_missing t σ E). split; [right; eauto|]. split.
    + intros p [=].
    + intros p e [= <- _]. reflexivity.
Qed.

(** C10. No validation in wiki.go.  For every request whose path has at
    least len("/view/") bytes, each handler takes everything after that
    many bytes as the title, whatever bytes it holds: the view and edit
    handlers read <title>.txt (the edit handler too cuts at len("/view/")),
    the save handler writes the submitted body to <title>.txt, and the
    file then holds it when the write is accepted. *)
Theorem wiki_handlers_take_any_title (ParseFiles : string → Template + string)
    (r : Request) (t : string) (σ : World) :
  sliceFrom (String.length "/view/") (URLPath r) = Some t →
  let body := list_byte_of_string (FormValue r "body") in
  (∃ cs, calls (snd (Wiki.viewHandler ParseFiles r σ))
         = (calls σ ++ [CPrintln ("view: " +:+ URLPath r);
                        CReadFile (filename t)] ++ cs)%list)
  ∧ (∃ cs, calls (snd (Wiki.editHandler ParseFiles r σ))
           = (calls σ ++ [CPrintln ("edit: " +:+ URLPath r);
                          CReadFile (filename t)] ++ cs)%list)
  ∧ (∃ cs, calls (snd (Wiki.saveHandler r σ))
           = (calls σ ++ [CPrintln ("save: " +:+ URLPath r);
                          CPrintln ("saving" +:+ filename t);
                          CWriteFile (filename t) body perm0600] ++ cs)%list)
  ∧ (writeErr σ (filename t) = None →
     files (snd (Wiki.saveHandler r σ)) !! filename t = Some body).
Proof.
  intros Hs body. split; [|split; [|split]].
  - unfold Wiki.viewHandler, Println. rewrite bind_modify.
    erewrite bind_Done by (apply afterPrefix_Some; exact Hs).
    destruct (files σ !! filename t) as [b|] eqn:E.
    + erewrite bind_Done by (apply loadPage_found; exact E). cbv beta iota.
      rewrite bind_ret.
      lazymatch goal with |- context [Wiki.renderTemplate ?f ?n ?p ?s] =>
        destruct (Wiki_renderTemplate_spec f n p s)
          as (σ3 & cs & -> & (_ & _ & _ & C & _)) end.
      eexists. simpl. rewrite C. simpl. rewrite <- !app_assoc. reflexivity.
    + erewrite bind_Done by (apply loadPage_missing; exact E). cbv beta iota.
      lazymatch goal with |- context [(http_Redirect ?a ?u ?c ≫= _) ?s] =>
        destruct (http_Redirect_spec a u c s)
          as (σ2 & E2 & (_ & _ & _ & C2 & _) & _) end.
      erewrite bind_Done by exact E2.
      lazymatch goal with |- context [Wiki.renderTemplate ?f ?n ?p ?s] =>
        destruct (Wiki_renderTemplate_spec f n p s)
          as (σ3 & cs & -> & (_ & _ & _ & C & _)) end.
      eexists. simpl. rewrite C, C2. simpl. rewrite <- !app_assoc. reflexivity.
  - unfold Wiki.editHandler, Println. rewrite bind_modify.
    erewrite bind_Done by (apply afterPrefix_Some; exact Hs).
    destruct (files σ !! filename t) as [b|] eqn:E.
    + erewrite bind_Done by (apply loadPage_found; exact E). cbv beta iota zeta.
      lazymatch goal with |- context [Wiki.renderTemplate ?f ?n ?p ?s] =>
        destruct (Wiki_renderTemplate_spec f n p s)
          as (σ3 & cs & -> & (_ & _ & _ & C & _)) end.
      eexists. simpl. rewrite C. simpl. rewrite <- !app_assoc. reflexivity.
    + erewrite bind_Done by (apply loadPage_missing; exact E). cbv beta iota zeta.
      lazymatch goal with |- context [Wiki.renderTemplate ?f ?n ?p ?s] =>
        destruct (Wiki_renderTemplate_spec f n p s)
          as (σ3 & cs & -> & (_ & _ & _ & C & _)) end.
      eexists. simpl. rewrite C. simpl. rewrite <- !app_assoc. reflexivity.
  - unfold Wiki.saveHandler, Println. rewrite bind_modify.
    erewrite bind_Done by (apply afterPrefix_Some; exact Hs).
    cbv zeta. fold body.
    destruct (writeErr σ (filename t)) as [e|] eqn:E.
    + erewrite bind_Done by (apply save_refused; exact E). cbv beta iota.
      lazymatch goal with |- context [http_Error ?e ?c ?s] =>
        destruct (http_Error_spec e c s) as (σ' & -> & (_ & _ & _ & C & _) & _)
      end.
      eexists. simpl. rewrite C. simpl. rewrite <- !app_assoc. reflexivity.
    + erewrite bind_Done by (apply save_ok; exact E). cbv beta iota.
      lazymatch goal with |- context [http_Redirect ?a ?u ?c ?s] =>
        destruct (http_Redirect_spec a u c s)
          as (σ' & -> & (_ & _ & _ & C & _) & _) end.
      eexists. simpl. rewrite C. simpl. rewrite <- !app_assoc. reflexivity.
  - intros E. unfold Wiki.saveHandler, Println. rewrite bind_modify.
    erewrite bind_Done by (apply afterPrefix_Some; exact Hs).
    cbv zeta. fold body.
    erewrite bind_Done by (apply save_ok; exact E). cbv beta iota.
    lazymatch goal with |- context [http_Redirect ?a ?u ?c ?s] =>
      destruct (http_Redirect_spec a u c s)
        as (σ' & -> & (F & _ & _ & _ & _) & _) end.
    simpl. rewrite F. simpl. apply lookup_insert_eq.
Qed.

Lemma wiki_handlers_take_any_title_witness :
  let tpl : Template := fun p => ([], None) in
  let ParseFiles := fun _ : string => @inl Template string tpl in
  let r := {| Method := "POST"; URLPath := "/edit/../../etc/passwd";
              Form := {[ "body" := ["x"] ]} |} in
  let t := "../../etc/passwd" in
  let body := list_byte_of_string "x" in
  (∃ cs, calls (snd (Wiki.viewHandler ParseFiles r emptyDir))
         = ([CPrintln "view: /edit/../../etc/passwd";
             CReadFile "../../etc/passwd.txt"] ++ cs)%list)
  ∧ (∃ cs, calls (snd (Wiki.editHandler ParseFiles r emptyDir))
           = ([CPrintln "edit: /edit/../../etc/passwd";
               CReadFile "../../etc/passwd.txt"] ++ cs)%list)
  ∧ (∃ cs, calls (snd (Wiki.saveHandler r emptyDir))
           = ([CPrintln "save: /edit/../../etc/passwd";
               CPrintln "saving../../etc/passwd.txt";
               CWriteFile "../../etc/passwd.txt" body perm0600] ++ cs)%list)
  ∧ (writeErr emptyDir (filename t) = None →
     files (snd (Wiki.saveHandler r emptyDir)) !! filename t = Some body).
Proof.
  intros tpl ParseFiles r t body.
  apply (wiki_handlers_take_any_title ParseFiles r t emptyDir).
  reflexivity.
Defined.

(** ** Further facts and scenarios *)

(** In wiki.go a path shorter than the prefix makes the slice expression
    panic, after the request line was printed. *)
Lemma Wiki_viewHandler_short_path (ParseFiles : string → Template + string)
    (r : Request) (σ : World) :
  sliceFrom (String.length "/view/") (URLPath r) = None →
  Wiki.viewHandler ParseFiles r σ
  = (Panic "slice bounds out of range", printed ("view: " +:+ URLPath r) σ).
Proof.
  intros H. unfold Wiki.viewHandler, Println. rewrite bind_modify.
  now erewrite bind_Panic by (apply afterPrefix_None; exact H).
Qed.

(** The wrapper never panics on its index expression: a match always has
    its three elements. *)
Lemma makeHandler_index_total (path : string) (m : list string) :
  validPath_FindStringSubmatch path = Some m → ∃ id, m !! 2 = Some id.
Proof.
  intros H. destruct (FindStringSubmatch_Some _ _ H) as (a & id & -> & _).
  now exists id.
Qed.

(** POST /save/Alpha with body Hello: Alpha.txt holds Hello, and the
    answer is a redirect to /view/Alpha. *)
Example scenario_save_Alpha :
  let r := {| Method := "POST"; URLPath := "/save/Alpha";
              Form := {[ "body" := ["Hello"] ]} |} in
  let σ' := snd (Validated.saveRoute r emptyDir) in
  files σ' !! "Alpha.txt" = Some (list_byte_of_string "Hello")
  ∧ status σ' = Some 302
  ∧ sentHeader "Location" σ' = Some "/view/Alpha".
Proof. vm_compute. auto. Qed.

(** Two saves to the same title leave the second body in the file. *)
Example scenario_last_writer_wins :
  let save1 := {| Title := "Alpha"; Body := list_byte_of_string "one" |} in
  let save2 := {| Title := "Alpha"; Body := list_byte_of_string "two" |} in
  files (snd ((save save1;; save save2) emptyDir)) !! "Alpha.txt"
  = Some (list_byte_of_string "two").
Proof. vm_compute. reflexivity. Qed.

(** The command-line stage prints the page it saved. *)
Example scenario_cli_main :
  fst (Cli.main emptyDir) = Done tt
  ∧ printsOf (calls (snd (Cli.main emptyDir)))
    = ["savingTestPage.txt"; "This is a sample page"].
Proof. vm_compute. auto. Qed.

(** * Further properties of the three stages *)

(** ** More on strings and on the response writer *)

Lemma append_assoc (a b c : string) : (a +:+ b) +:+ c = a +:+ b +:+ c.
Proof. induction a as [|x a IH]; simpl; [reflexivity | now rewrite IH]. Qed.

Lemma append_nil_r (a : string) : a +:+ EmptyString = a.
Proof. induction a as [|x a IH]; simpl; [reflexivity | now rewrite IH]. Qed.

Lemma sliceFrom_app (p t : string) : sliceFrom (String.length p) (p +:+ t) = Some t.
Proof. induction p as [|c p IH]; simpl; [reflexivity | exact IH]. Qed.

Lemma sliceFrom_None (n : nat) (s : string) :
  sliceFrom n s = None ↔ (String.length s < n)%nat.
Proof.
  revert s. induction n as [|n IH]; intros s; simpl.
  - split; [discriminate | lia].
  - destruct s as [|c s]; simpl.
    + split; [lia | reflexivity].
    + rewrite IH. lia.
Qed.

Lemma Write_header (data : string) (w : ResponseWriter) :
  header (Write data w) = header w.
Proof. unfold Write, WriteHeader. now destruct (wroteHeader w). Qed.

Lemma writeChunks_header (chunks : list string) (w : ResponseWriter) :
  header (writeChunks chunks w) = header w.
Proof.
  unfold writeChunks. revert w.
  induction chunks as [|c chunks IH]; intros w; simpl; [reflexivity|].
  now rewrite IH, Write_header.
Qed.

Lemma writeChunks_written (chunks : list string) (w : ResponseWriter) :
  written (writeChunks chunks w) = written w +:+ joined chunks.
Proof.
  unfold writeChunks. revert w.
  induction chunks as [|c chunks IH]; intros w; simpl.
  - now rewrite append_nil_r.
  - rewrite IH, Write_written. apply append_assoc.
Qed.

Lemma writeChunks_first (c : string) (chunks : list string) (w : ResponseWriter) :
  wroteHeader w = None →
  wroteHeader (writeChunks (c :: chunks) w) = Some (StatusOK, header w).
Proof.
  intros H. unfold writeChunks. simpl. apply (writeChunks_sent chunks).
  unfold Write. simpl. now apply WriteHeader_first.
Qed.

Lemma storeNames_app (cs1 cs2 : list Call) :
  storeNames (cs1 ++ cs2) = (storeNames cs1 ++ storeNames cs2)%list.
Proof. apply omap_app. Qed.

Lemma storeNames_errors (cs : list Call) :
  Forall isServerError cs → storeNames cs = [].
Proof. induction 1 as [|c cs [e ->] _ IH]; [reflexivity | exact IH]. Qed.

Lemma redirectsOf_errors (cs : list Call) :
  Forall isServerError cs → redirectsOf cs = [].
Proof. induction 1 as [|c cs [e ->] _ IH]; [reflexivity | exact IH]. Qed.

(** ** The handlers of the final stage, case by case *)

Lemma Validated_viewHandler_found (templates : string → option Template)
    (r : Request) (t : string) (b : list Byte.byte) (σ : World) :
  files σ !! filename t = Some b →
  Validated.viewHandler templates r t σ
  = Validated.renderTemplate templates "view" (Some {| Title := t; Body := b |})
      (record (CReadFile (filename t)) (printed ("view: " +:+ URLPath r) σ)).
Proof.
  intros H. unfold Validated.viewHandler, Println. rewrite bind_modify.
  erewrite bind_Done by (apply loadPage_found; exact H). cbv beta iota.
  now rewrite bind_ret.
Qed.

Lemma Validated_editHandler_found (templates : string → option Template)
    (r : Request) (t : string) (b : list Byte.byte) (σ : World) :
  files σ !! filename t = Some b →
  Validated.editHandler templates r t σ
  = Validated.renderTemplate templates "edit" (Some {| Title := t; Body := b |})
      (record (CReadFile (filename t)) σ).
Proof.
  intros H. unfold Validated.editHandler.
  now erewrite bind_Done by (apply loadPage_found; exact H).
Qed.

Lemma Validated_editHandler_missing (templates : string → option Template)
    (r : Request) (t : string) (σ : World) :
  files σ !! filename t = None →
  Validated.editHandler templates r t σ
  = Validated.renderTemplate templates "edit" (Some {| Title := t; Body := [] |})
      (record (CReadFile (filename t)) σ).
Proof.
  intros H. unfold Validated.editHandler.
  now erewrite bind_Done by (apply loadPage_missing; exact H).
Qed.

Lemma Validated_saveHandler_ok (r : Request) (t : string) (σ : World) :
  writeErr σ (filename t) = None →
  let body := list_byte_of_string (FormValue r "body") in
  Validated.saveHandler r t σ
  = http_Redirect r ("/view/" +:+ t) StatusFound
      (setFiles (<[filename t := body]> (files σ))
         (record (CWriteFile (filename t) body perm0600)
            (printed ("saving" +:+ filename t)
               (printed ("save: " +:+ URLPath r) σ)))).
Proof.
  intros H body. unfold Validated.saveHandler, Println. rewrite bind_modify.
  fold body. now erewrite bind_Done by (apply save_ok; exact H).
Qed.

Lemma Validated_saveHandler_refused (r : Request) (t e : string) (σ : World) :
  writeErr σ (filename t) = Some e →
  let body := list_byte_of_string (FormValue r "body") in
  Validated.saveHandler r t σ
  = http_Error e StatusInternalServerError
      (record (CWriteFile (filename t) body perm0600)
         (printed ("saving" +:+ filename t)
            (printed ("save: " +:+ URLPath r) σ))).
Proof.
  intros H body. unfold Validated.saveHandler, Println. rewrite bind_modify.
  fold body. now erewrite bind_Done by (apply save_refused; exact H).
Qed.

Lemma Validated_viewHandler_oneAccess (templates : string → option Template) :
  oneAccess (Validated.viewHandler templates).
Proof.
  intros r t σ. destruct (files σ !! filename t) as [b|] eqn:E.
  - rewrite (Validated_viewHandler_found templates r t b σ E).
    lazymatch goal with |- context [Validated.renderTemplate ?f ?n ?p ?s] =>
      destruct (Validated_renderTemplate_spec f n p s)
        as (σ' & cs & -> & (_ & _ & _ & C & _) & Fe) end.
    eexists σ', (_ :: _ :: _ :: cs). split; [reflexivity|]. split.
    + rewrite C. simpl. rewrite <- !app_assoc. reflexivity.
    + simpl. now rewrite (storeNames_errors _ Fe).
  - destruct (Validated_viewHandler_missing templates r t σ E)
      as (σ2 & σ3 & cs & _ & (_ & _ & _ & C2 & _) & _ & _
          & (_ & _ & _ & C3 & _) & Fe & ->).
    eexists σ3, (_ :: _ :: _ :: _ :: cs). split; [reflexivity|]. split.
    + rewrite C3, C2. simpl. rewrite <- !app_assoc. reflexivity.
    + simpl. now rewrite (storeNames_errors _ Fe).
Qed.

Lemma Validated_editHandler_oneAccess (templates : string → option Template) :
  oneAccess (Validated.editHandler templates).
Proof.
  intros r t σ. destruct (files σ !! filename t) as [b|] eqn:E;
    [rewrite (Validated_editHandler_found templates r t b σ E)
    |rewrite (Validated_editHandler_missing templates r t σ E)];
    (lazymatch goal with |- context [Validated.renderTemplate ?f ?n ?p ?s] =>
       destruct (Validated_renderTemplate_spec f n p s)
         as (σ' & cs & -> & (_ & _ & _ & C & _) & Fe) end;
     eexists σ', (_ :: _ :: cs); split; [reflexivity|]; split;
     [ rewrite C; simpl; rewrite <- !app_assoc; reflexivity
     | simpl; now rewrite (storeNames_errors _ Fe) ]).
Qed.

Lemma Validated_saveHandler_oneAccess : oneAccess Validated.saveHandler.
Proof.
  intros r t σ. destruct (writeErr σ (filename t)) as [e|] eqn:E.
  - rewrite (Validated_saveHandler_refused r t e σ E).
    lazymatch goal with |- context [http_Error ?e ?c ?s] =>
      destruct (http_Error_spec e c s) as (σ' & -> & (_ & _ & _ & C & _) & _) end.
    eexists σ', [_; _; _; _]. split; [reflexivity|]. split.
    + rewrite C. simpl. rewrite <- !app_assoc. reflexivity.
    + reflexivity.
  - rewrite (Validated_saveHandler_ok r t σ E).
    lazymatch goal with |- context [http_Redirect ?a ?u ?c ?s] =>
      destruct (http_Redirect_spec a u c s)
        as (σ' & -> & (_ & _ & _ & C & _) & _) end.
    eexists σ', [_; _; _; _]. split; [reflexivity|]. split.
    + rewrite C. simpl. rewrite <- !app_assoc. reflexivity.
    + reflexivity.
Qed.

Lemma makeHandler_servedSafely (fn : Request → string → M unit)
    (r : Request) (σ : World) :
  oneAccess fn → servedSafely (Validated.makeHandler fn) r σ.
Proof.
  intros Hfn. unfold servedSafely.
  destruct (validPath_FindStringSubmatch (URLPath r)) as [m|] eqn:E.
  - destruct (FindStringSubmatch_Some _ _ E) as (action & id & _ & Ha & Hid & Hp).
    rewrite (makeHandler_routed fn r action id σ Ha Hid Hp).
    destruct (Hfn r id σ) as (σ' & cs & -> & C & N).
    exists σ', cs. split; [reflexivity|]. split; [exact C|].
    right. now exists action, id.
  - unfold Validated.makeHandler. rewrite E. unfold http_NotFound.
    destruct (http_Error_spec "404 page not found" StatusNotFound σ)
      as (σ' & -> & (_ & _ & _ & C & _) & _).
    exists σ', [CError "404 page not found" StatusNotFound].
    split; [reflexivity|]. split; [exact C|].
    left. split; [now apply FindStringSubmatch_None | reflexivity].
Qed.

(** ** Properties *)

(** X1. The path pattern.  validPath.FindStringSubmatch(path) returns a
    match exactly when the path is a slash, one of edit, save and view, a
    slash and a non-empty run of letters and digits up to the end; the
    match is then the slice of the whole path, the action and the
    identifier. *)
Theorem validPath_matches_iff (path : string) (m : list string) :
  validPath_FindStringSubmatch path = Some m
  ↔ ∃ action id,
      (action = "edit" ∨ action = "save" ∨ action = "view")
      ∧ Identifier id
      ∧ path = "/" +:+ action +:+ "/" +:+ id
      ∧ m = [path; action; id].
Proof.
  split.
  - intros H. destruct (FindStringSubmatch_Some _ _ H) as (a & id & ? & ? & ? & ?).
    exists a, id. auto.
  - intros (a & id & Ha & Hid & -> & ->).
    exact (FindStringSubmatch_routed a id Ha Hid).
Qed.

(** X2. No path whose identifier segment holds a byte that is not a
    letter or a digit (a dot, a slash, a space, ...) or is empty matches
    the pattern, whatever the action: FindStringSubmatch returns nil. *)
Theorem validPath_rejects_bad_identifier (action id : string) :
  action = "edit" ∨ action = "save" ∨ action = "view" →
  ¬ Identifier id →
  validPath_FindStringSubmatch ("/" +:+ action +:+ "/" +:+ id) = None.
Proof.
  intros Ha Hid.
  assert (E : isIdentifier id = false).
  { destruct (isIdentifier id) eqn:E; [|reflexivity].
    destruct Hid. now apply isIdentifier_spec. }
  unfold validPath_FindStringSubmatch.
  destruct Ha as [-> | [-> | ->]]; simpl; now rewrite E.
Qed.

Lemma validPath_rejects_bad_identifier_witness :
  validPath_FindStringSubmatch ("/" +:+ "edit" +:+ "/" +:+ "../../etc/passwd") = None.
Proof.
  apply (validPath_rejects_bad_identifier "edit" "../../etc/passwd").
  - left. reflexivity.
  - intros H. apply isIdentifier_spec in H. discriminate H.
Defined.

(** X3. getTitle.  On a path that matches the pattern getTitle returns
    the identifier and a nil error and leaves the world, the response
    included, as it was.  On any other path it answers with http.NotFound
    (status 404 on a new response) and returns the empty string and the
    error Invalid Page Title; no file is read or written. *)
Theorem getTitle_spec (r : Request) (σ : World) :
  (∃ action id,
     (action = "edit" ∨ action = "save" ∨ action = "view")
     ∧ Identifier id
     ∧ URLPath r = "/" +:+ action +:+ "/" +:+ id
     ∧ Validated.getTitle r σ = (Done (id, None), σ))
  ∨ (¬ RoutedPath (URLPath r)
     ∧ ∃ σ',
         Validated.getTitle r σ
         = (Done (EmptyString, Some "Invalid Page Title"), σ')
         ∧ http_NotFound r σ = (Done tt, σ')
         ∧ calls σ' = (calls σ ++ [CError "404 page not found" StatusNotFound])%list
         ∧ files σ' = files σ
         ∧ (resp σ = newResponse → status σ' = Some StatusNotFound)).
Proof.
  unfold Validated.getTitle.
  destruct (validPath_FindStringSubmatch (URLPath r)) as [m|] eqn:Hm.
  - left. destruct (FindStringSubmatch_Some _ _ Hm) as (a & id & -> & Ha & Hid & Hp).
    exists a, id. split; [exact Ha|]. split; [exact Hid|]. split; [exact Hp|].
    reflexivity.
  - right. split; [now apply FindStringSubmatch_None|]. unfold http_NotFound.
    destruct (http_Error_spec "404 page not found" StatusNotFound σ)
      as (σ' & E & (F & _ & _ & C & _) & S).
    exists σ'. split; [now erewrite bind_Done by exact E|].
    split; [exact E|]. split; [exact C|]. split; [exact F|].
    intros Hr. apply S. now rewrite Hr.
Qed.

(** X4. makeHandler is getTitle followed by the inner handler: for every
    inner handler and request, the wrapped handler does what getTitle
    does and then, when getTitle returned a nil error, calls the inner
    handler on the returned title, and otherwise returns. *)
Theorem makeHandler_is_getTitle_then_handler
    (fn : Request → string → M unit) (r : Request) (σ : World) :
  Validated.makeHandler fn r σ
  = ('(title, err) ← Validated.getTitle r;
     match err with
     | Some _ => mret tt
     | None => fn r title
     end) σ.
Proof.
  unfold Validated.makeHandler, Validated.getTitle.
  destruct (validPath_FindStringSubmatch (URLPath r)) as [m|] eqn:E.
  - destruct (FindStringSubmatch_Some _ _ E) as (a & id & -> & _).
    reflexivity.
  - unfold http_NotFound.
    destruct (http_Error_spec "404 page not found" StatusNotFound σ)
      as (σ' & E' & _).
    rewrite E'. symmetry.
    erewrite bind_Done
      by (erewrite bind_Done by exact E'; reflexivity).
    reflexivity.
Qed.

(** X5. What the inner handler receives.  For every inner handler and
    request, makeHandler either answers as http.NotFound does, on a path
    that is not routed, or is exactly the inner handler called on the
    last segment of the path, which is then a non-empty string of letters
    and digits. *)
Theorem makeHandler_dispatch (fn : Request → string → M unit) (r : Request)
    (σ : World) :
  (¬ RoutedPath (URLPath r)
   ∧ Validated.makeHandler fn r σ = http_NotFound r σ)
  ∨ (∃ action id,
       (action = "edit" ∨ action = "save" ∨ action = "view")
       ∧ Identifier id
       ∧ URLPath r = "/" +:+ action +:+ "/" +:+ id
       ∧ Validated.makeHandler fn r σ = fn r id σ).
Proof.
  destruct (validPath_FindStringSubmatch (URLPath r)) as [m|] eqn:E.
  - right. destruct (FindStringSubmatch_Some _ _ E) as (a & id & _ & Ha & Hid & Hp).
    exists a, id. split; [exact Ha|]. split; [exact Hid|]. split; [exact Hp|].
    now apply (makeHandler_routed fn r a id).
  - left. split; [now apply FindStringSubmatch_None|].
    unfold Validated.makeHandler. now rewrite E.
Qed.

(** X6. The three routes of the final stage never panic, and a request
    reads or writes at most one file: none when the path is not routed,
    and otherwise exactly the file <id>.txt of the identifier in the
    path, once. *)
Theorem routes_touch_one_file (templates : string → option Template)
    (r : Request) (σ : World) :
  servedSafely (Validated.viewRoute templates) r σ
  ∧ servedSafely (Validated.editRoute templates) r σ
  ∧ servedSafely Validated.saveRoute r σ.
Proof.
  repeat split; apply makeHandler_servedSafely.
  - apply Validated_viewHandler_oneAccess.
  - apply Validated_editHandler_oneAccess.
  - apply Validated_saveHandler_oneAccess.
Qed.

Lemma http_Error_written (msg : string) (code : nat) (σ σ' : World) :
  http_Error msg code σ = (Done tt, σ') →
  written (resp σ') = written (resp σ) +:+ msg +:+ nl.
Proof.
  assert (W : ∀ c w, written (WriteHeader c w) = written w)
    by (intros c w; unfold WriteHeader; now destruct (wroteHeader w)).
  intros [= <-]. simpl. now rewrite !W.
Qed.

(** X7. renderTemplate of the final stage, on a new response.  When the
    template runs without error the response is what it wrote and no
    error response is made.  When it stops with error e, http.Error is
    called with e and 500, and its text follows whatever the template
    already wrote; the status the client receives is 500 only if the
    template had written nothing, and is the 200 sent with the first
    chunk otherwise.  A name the template set does not define gives
    status 500. *)
Theorem renderTemplate_outcome (templates : string → option Template)
    (tmpl : string) (p : PagePtr) (σ : World) :
  resp σ = newResponse →
  ∃ σ',
    Validated.renderTemplate templates tmpl p σ = (Done tt, σ')
    ∧ files σ' = files σ
    ∧ match templates (tmpl +:+ ".html") with
      | None =>
          status σ' = Some StatusInternalServerError
          ∧ ∃ e, calls σ' = (calls σ ++ [CExecuteTemplate (tmpl +:+ ".html") p;
                                          CError e StatusInternalServerError])%list
      | Some tpl =>
          match tpl p with
          | (chunks, None) =>
              resp σ' = writeChunks chunks newResponse
              ∧ written (resp σ') = joined chunks
              ∧ status σ' = match chunks with [] => None | _ :: _ => Some StatusOK end
              ∧ calls σ' = (calls σ ++ [CExecuteTemplate (tmpl +:+ ".html") p])%list
          | (chunks, Some e) =>
              written (resp σ') = joined chunks +:+ e +:+ nl
              ∧ status σ' = Some (match chunks with
                                  | [] => StatusInternalServerError
                                  | _ :: _ => StatusOK
                                  end)
              ∧ calls σ' = (calls σ ++ [CExecuteTemplate (tmpl +:+ ".html") p;
                                         CError e StatusInternalServerError])%list
          end
      end.
Proof.
  intros Hr. unfold Validated.renderTemplate, Validated.ExecuteTemplate.
  run. simpl.
  destruct (templates (tmpl +:+ ".html")) as [tpl|].
  - destruct (tpl p) as [chunks [e|]]; simpl.
    + destruct (http_Error_spec e StatusInternalServerError
                  (onResp (writeChunks chunks)
                     (record (CExecuteTemplate (tmpl +:+ ".html") p) σ)))
        as (σ' & E & (F & _ & _ & C & K) & S).
      exists σ'. split; [exact E|]. split; [exact F|].
      split.
      { rewrite (http_Error_written _ _ _ _ E). simpl.
        rewrite writeChunks_written, Hr. reflexivity. }
      split.
      { destruct chunks as [|c chunks].
        - apply S. simpl. now rewrite Hr.
        - unfold status.
          rewrite (K (StatusOK, header (resp σ))); [reflexivity|].
          simpl. apply (writeChunks_first c chunks). now rewrite Hr. }
      rewrite C. simpl. now rewrite <- app_assoc.
    + eexists. split; [reflexivity|]. split; [reflexivity|].
      unfold status. simpl. rewrite Hr. split; [reflexivity|].
      split; [now rewrite writeChunks_written|]. split; [|reflexivity].
      destruct chunks as [|c chunks]; [reflexivity|].
      now rewrite (writeChunks_first c chunks newResponse eq_refl).
  - lazymatch goal with |- context [http_Error ?e ?c ?s] =>
      destruct (http_Error_spec e c s) as (σ' & E & (F & _ & _ & C & _) & S) end.
    exists σ'. split; [exact E|]. split; [exact F|]. split.
    + apply S. simpl. now rewrite Hr.
    + eexists. rewrite C. simpl. now rewrite <- app_assoc.
Qed.

Lemma renderTemplate_outcome_witness :
  let tpl : Template := fun p =>
    match p with
    | Some pg => (["<h1>"; Title pg; "</h1>"], None)
    | None => (["<h1>"], Some "nil pointer evaluating *main.Page.Title")
    end in
  ∃ σ',
    Validated.renderTemplate (fun _ => Some tpl) "view" None emptyDir = (Done tt, σ')
    ∧ files σ' = ∅
    ∧ written (resp σ')
      = "<h1>" +:+ "nil pointer evaluating *main.Page.Title" +:+ nl
    ∧ status σ' = Some StatusOK
    ∧ calls σ' = [CExecuteTemplate "view.html" None;
                  CError "nil pointer evaluating *main.Page.Title"
                    StatusInternalServerError].
Proof.
  intros tpl.
  destruct (renderTemplate_outcome (fun _ => Some tpl) "view" None emptyDir eq_refl)
    as (σ' & E & F & H).
  exists σ'. split; [exact E|]. split; [exact F|]. exact H.
Defined.

Lemma Validated_viewHandler_found_calls (templates : string → option Template)
    (r : Request) (t : string) (b : list Byte.byte) (σ : World) :
  files σ !! filename t = Some b →
  let p := {| Title := t; Body := b |} in
  ∃ σ' cs,
    Validated.viewHandler templates r t σ = (Done tt, σ')
    ∧ calls σ' =
        (calls σ ++ [CPrintln ("view: " +:+ URLPath r); CReadFile (filename t);
                     CExecuteTemplate "view.html" (Some p)] ++ cs)%list
    ∧ Forall isServerError cs
    ∧ files σ' = files σ.
Proof.
  intros H p. rewrite (Validated_viewHandler_found templates r t b σ H).
  lazymatch goal with |- context [Validated.renderTemplate ?f ?n ?q ?s] =>
    destruct (Validated_renderTemplate_spec f n q s)
      as (σ' & cs & -> & (F & _ & _ & C & _) & Fe) end.
  exists σ', cs. split; [reflexivity|]. split; [|split; [exact Fe | exact F]].
  rewrite C. simpl. rewrite <- !app_assoc. reflexivity.
Qed.

(** X8. Viewing a page that exists.  For every title t matching
    ^[A-Za-z0-9]+$ whose file t.txt holds b, the request for /view/t is
    renderTemplate("view") on the Page with title t and body b: view.html
    is executed on that page, no redirect is issued, no file is written
    and the files are left as they were. *)
Theorem view_found_renders (templates : string → option Template)
    (r : Request) (t : string) (b : list Byte.byte) (σ : World) :
  Identifier t →
  URLPath r = "/view/" +:+ t →
  files σ !! filename t = Some b →
  let p := {| Title := t; Body := b |} in
  Validated.viewRoute templates r σ
  = Validated.renderTemplate templates "view" (Some p)
      (record (CReadFile (filename t)) (printed ("view: " +:+ URLPath r) σ))
  ∧ ∃ σ' cs,
      Validated.viewRoute templates r σ = (Done tt, σ')
      ∧ calls σ' =
          (calls σ ++ [CPrintln ("view: " +:+ URLPath r); CReadFile (filename t);
                       CExecuteTemplate "view.html" (Some p)] ++ cs)%list
      ∧ Forall isServerError cs
      ∧ redirectsOf (calls σ') = redirectsOf (calls σ)
      ∧ writesOf (calls σ') = writesOf (calls σ)
      ∧ files σ' = files σ.
Proof.
  intros Hid Hp Hf p. unfold Validated.viewRoute.
  rewrite (makeHandler_routed _ r "view" t) by (auto; exact Hp).
  split; [now apply Validated_viewHandler_found|].
  destruct (Validated_viewHandler_found_calls templates r t b σ Hf)
    as (σ' & cs & E & C & Fe & F).
  exists σ', cs. split; [exact E|]. split; [exact C|]. split; [exact Fe|].
  rewrite C, !redirectsOf_app, !writesOf_app. simpl.
  rewrite (redirectsOf_errors _ Fe), (writesOf_errors _ Fe), !app_nil_r. auto.
Qed.

Lemma view_found_renders_witness :
  let tpl : Template := fun p =>
    match p with
    | Some pg => ([Title pg; string_of_list_byte (Body pg)], None)
    | None => ([], Some "nil pointer evaluating *main.Page.Title")
    end in
  let templates := fun _ : string => Some tpl in
  let r := {| Method := "GET"; URLPath := "/view/Alpha"; Form := ∅ |} in
  let b := list_byte_of_string "Hello" in
  let σ := world {[ "Alpha.txt" := b ]} (fun _ => None) in
  let p := {| Title := "Alpha"; Body := b |} in
  Validated.viewRoute templates r σ
  = Validated.renderTemplate templates "view" (Some p)
      (record (CReadFile "Alpha.txt") (printed "view: /view/Alpha" σ))
  ∧ ∃ σ' cs,
      Validated.viewRoute templates r σ = (Done tt, σ')
      ∧ calls σ' =
          (calls σ ++ [CPrintln "view: /view/Alpha"; CReadFile "Alpha.txt";
                       CExecuteTemplate "view.html" (Some p)] ++ cs)%list
      ∧ Forall isServerError cs
      ∧ redirectsOf (calls σ') = redirectsOf (calls σ)
      ∧ writesOf (calls σ') = writesOf (calls σ)
      ∧ files σ' = files σ.
Proof.
  intros tpl templates r b σ p.
  apply (view_found_renders templates r "Alpha" b σ).
  - apply isIdentifier_spec. reflexivity.
  - reflexivity.
  - reflexivity.
Defined.

(** X9. Editing a page that exists.  For every title t matching
    ^[A-Za-z0-9]+$ whose file t.txt holds b, the request for /edit/t is
    renderTemplate("edit") on the Page with title t and the stored body
    b: edit.html is executed on that page, nothing is printed, no file is
    written and the files are left as they were. *)
Theorem edit_found_renders (templates : string → option Template)
    (r : Request) (t : string) (b : list Byte.byte) (σ : World) :
  Identifier t →
  URLPath r = "/edit/" +:+ t →
  files σ !! filename t = Some b →
  let p := {| Title := t; Body := b |} in
  Validated.editRoute templates r σ
  = Validated.renderTemplate templates "edit" (Some p)
      (record (CReadFile (filename t)) σ)
  ∧ ∃ σ' cs,
      Validated.editRoute templates r σ = (Done tt, σ')
      ∧ calls σ' =
          (calls σ ++ [CReadFile (filename t);
                       CExecuteTemplate "edit.html" (Some p)] ++ cs)%list
      ∧ Forall isServerError cs
      ∧ stdout σ' = stdout σ
      ∧ writesOf (calls σ') = writesOf (calls σ)
      ∧ files σ' = files σ.
Proof.
  intros Hid Hp Hf p. unfold Validated.editRoute.
  rewrite (makeHandler_routed _ r "edit" t) by (auto; exact Hp).
  rewrite (Validated_editHandler_found templates r t b σ Hf). fold p.
  split; [reflexivity|].
  destruct (Validated_renderTemplate_spec templates "edit" (Some p)
              (record (CReadFile (filename t)) σ))
    as (σ' & cs & E & (F & _ & O & C & _) & Fe).
  exists σ', cs. split; [exact E|].
  assert (C' : calls σ' =
    (calls σ ++ [CReadFile (filename t);
                 CExecuteTemplate "edit.html" (Some p)] ++ cs)%list).
  { rewrite C. simpl. rewrite <- app_assoc. reflexivity. }
  split; [exact C'|]. split; [exact Fe|]. split; [exact O|].
  split; [|exact F].
  rewrite C', !writesOf_app. simpl.
  rewrite (writesOf_errors _ Fe), app_nil_r. reflexivity.
Qed.

Lemma edit_found_renders_witness :
  let tpl : Template := fun p =>
    match p with
    | Some pg => ([Title pg; string_of_list_byte (Body pg)], None)
    | None => ([], Some "nil pointer evaluating *main.Page.Title")
    end in
  let templates := fun _ : string => Some tpl in
  let r := {| Method := "GET"; URLPath := "/edit/Alpha"; Form := ∅ |} in
  let b := list_byte_of_string "Hello" in
  let σ := world {[ "Alpha.txt" := b ]} (fun _ => None) in
  let p := {| Title := "Alpha"; Body := b |} in
  Validated.editRoute templates r σ
  = Validated.renderTemplate templates "edit" (Some p)
      (record (CReadFile "Alpha.txt") σ)
  ∧ ∃ σ' cs,
      Validated.editRoute templates r σ = (Done tt, σ')
      ∧ calls σ' =
          (calls σ ++ [CReadFile "Alpha.txt";
                       CExecuteTemplate "edit.html" (Some p)] ++ cs)%list
      ∧ Forall isServerError cs
      ∧ stdout σ' = stdout σ
      ∧ writesOf (calls σ') = writesOf (calls σ)
      ∧ files σ' = files σ.
Proof.
  intros tpl templates r b σ p.
  apply (edit_found_renders templates r "Alpha" b σ).
  - apply isIdentifier_spec. reflexivity.
  - reflexivity.
  - reflexivity.
Defined.

(** X10. Save, then view.  For every title t matching ^[A-Za-z0-9]+$,
    when the write of t.txt is accepted, a request for /save/t followed
    by a request for /view/t on a new response is answered by view.html
    executed on the Page with title t and the body just submitted; the
    view request issues no redirect. *)
Theorem save_then_view (templates : string → option Template)
    (rs rv : Request) (t : string) (σ : World) :
  Identifier t →
  URLPath rs = "/save/" +:+ t →
  URLPath rv = "/view/" +:+ t →
  writeErr σ (filename t) = None →
  let p := {| Title := t; Body := list_byte_of_string (FormValue rs "body") |} in
  ∃ σ1 σ2 cs,
    Validated.saveRoute rs σ = (Done tt, σ1)
    ∧ Validated.viewRoute templates rv (setResp newResponse σ1) = (Done tt, σ2)
    ∧ calls σ2 =
        (calls σ1 ++ [CPrintln ("view: " +:+ URLPath rv); CReadFile (filename t);
                      CExecuteTemplate "view.html" (Some p)] ++ cs)%list
    ∧ Forall isServerError cs
    ∧ redirectsOf (calls σ2) = redirectsOf (calls σ1).
Proof.
  intros Hid Hs Hv E p. unfold Validated.saveRoute, Validated.viewRoute.
  rewrite (makeHandler_routed _ rs "save" t) by (auto; exact Hs).
  rewrite (Validated_saveHandler_ok rs t σ E).
  lazymatch goal with |- context [http_Redirect ?a ?u ?c ?s] =>
    destruct (http_Redirect_spec a u c s) as (σ1 & -> & (F & _ & _ & _ & _) & _) end.
  assert (Hf : files (setResp newResponse σ1) !! filename t = Some (Body p)).
  { simpl. rewrite F. simpl. apply lookup_insert_eq. }
  destruct (Validated_viewHandler_found_calls templates rv t (Body p)
              (setResp newResponse σ1) Hf) as (σ2 & cs & E2 & C & Fe & _).
  exists σ1, σ2, cs. split; [reflexivity|].
  rewrite (makeHandler_routed _ rv "view" t) by (auto; exact Hv).
  split; [exact E2|].
  simpl in C. split; [exact C|]. split; [exact Fe|].
  rewrite C, !redirectsOf_app. simpl.
  rewrite (redirectsOf_errors _ Fe), !app_nil_r. reflexivity.
Qed.

Lemma save_then_view_witness :
  let tpl : Template := fun p =>
    match p with
    | Some pg => ([Title pg; string_of_list_byte (Body pg)], None)
    | None => ([], Some "nil pointer evaluating *main.Page.Title")
    end in
  let templates := fun _ : string => Some tpl in
  let rs := {| Method := "POST"; URLPath := "/save/Alpha";
               Form := {[ "body" := ["Hello"] ]} |} in
  let rv := {| Method := "GET"; URLPath := "/view/Alpha"; Form := ∅ |} in
  let p := {| Title := "Alpha"; Body := list_byte_of_string "Hello" |} in
  ∃ σ1 σ2 cs,
    Validated.saveRoute rs emptyDir = (Done tt, σ1)
    ∧ Validated.viewRoute templates rv (setResp newResponse σ1) = (Done tt, σ2)
    ∧ calls σ2 =
        (calls σ1 ++ [CPrintln "view: /view/Alpha"; CReadFile "Alpha.txt";
                      CExecuteTemplate "view.html" (Some p)] ++ cs)%list
    ∧ Forall isServerError cs
    ∧ redirectsOf (calls σ2) = redirectsOf (calls σ1).
Proof.
  intros tpl templates rs rv p.
  apply (save_then_view templates rs rv "Alpha" emptyDir).
  - apply isIdentifier_spec. reflexivity.
  - reflexivity.
  - reflexivity.
  - reflexivity.
Defined.

(** X11. The last save wins.  Two saves to the same title, one after the
    other, return what the second one alone returns and leave the files
    as the second one alone leaves them, whether the writes are accepted
    or refused; saving the same page twice is saving it once. *)
Theorem save_twice_is_last_save (t : string) (b1 b2 : list Byte.byte) (σ : World) :
  let twice := (save {| Title := t; Body := b1 |};;
                save {| Title := t; Body := b2 |}) σ in
  let once := save {| Title := t; Body := b2 |} σ in
  fst twice = fst once ∧ files (snd twice) = files (snd once).
Proof.
  intros twice once. subst twice once.
  destruct (writeErr σ (filename t)) as [e|] eqn:E.
  - erewrite bind_Done by (apply save_refused; exact E).
    rewrite !(save_refused _ e) by exact E. split; reflexivity.
  - erewrite bind_Done by (apply save_ok; exact E).
    rewrite !save_ok by exact E. simpl. split; [reflexivity|].
    apply insert_insert_eq.
Qed.

(** X12. A save request without a body field.  For every title t
    matching ^[A-Za-z0-9]+$, when the form of the request for /save/t has
    no value for body, FormValue gives the empty string and an accepted
    save leaves t.txt empty, whatever it held, and redirects to
    /view/t. *)
Theorem save_without_body_empties (r : Request) (t : string) (σ : World) :
  Identifier t →
  URLPath r = "/save/" +:+ t →
  Form r !! "body" = None ∨ Form r !! "body" = Some [] →
  writeErr σ (filename t) = None →
  ∃ σ',
    Validated.saveRoute r σ = (Done tt, σ')
    ∧ files σ' = <[filename t := []]> (files σ)
    ∧ writesOf (calls σ') = (writesOf (calls σ) ++ [(filename t, [])])%list
    ∧ redirectsOf (calls σ')
      = (redirectsOf (calls σ) ++ [("/view/" +:+ t, StatusFound)])%list.
Proof.
  intros Hid Hp Hb E. unfold Validated.saveRoute.
  rewrite (makeHandler_routed _ r "save" t) by (auto; exact Hp).
  rewrite (Validated_saveHandler_ok r t σ E).
  assert (Hv : FormValue r "body" = EmptyString).
  { unfold FormValue. destruct Hb as [-> | ->]; reflexivity. }
  rewrite Hv.
  lazymatch goal with |- context [http_Redirect ?a ?u ?c ?s] =>
    destruct (http_Redirect_spec a u c s) as (σ' & -> & (F & _ & _ & C & _) & _) end.
  exists σ'. split; [reflexivity|]. split; [exact F|].
  rewrite C. simpl. rewrite !writesOf_app, !redirectsOf_app. simpl.
  rewrite !app_nil_r. auto.
Qed.

Lemma save_without_body_empties_witness :
  let r := {| Method := "POST"; URLPath := "/save/Alpha"; Form := ∅ |} in
  let σ := world {[ "Alpha.txt" := list_byte_of_string "Hello" ]} (fun _ => None) in
  ∃ σ',
    Validated.saveRoute r σ = (Done tt, σ')
    ∧ files σ' = <[filename "Alpha" := []]> (files σ)
    ∧ writesOf (calls σ') = (writesOf (calls σ) ++ [(filename "Alpha", [])])%list
    ∧ redirectsOf (calls σ')
      = (redirectsOf (calls σ) ++ [("/view/" +:+ "Alpha", StatusFound)])%list.
Proof.
  intros r σ.
  apply (save_without_body_empties r "Alpha" σ).
  - apply isIdentifier_spec. reflexivity.
  - reflexivity.
  - left. reflexivity.
  - reflexivity.
Defined.

(** ** wiki.go *)

(** X13. renderTemplate of wiki.go, on a new response.  The template
    file is parsed at every call.  When parsing fails with error e the
    template is not executed and the answer is status 500 with body e.
    When parsing succeeds the template is executed once; if it stops
    with error e, http.Error is called with e and 500 after whatever the
    template wrote, and the status received is 500 only if it had
    written nothing. *)
Theorem wiki_renderTemplate_outcome (ParseFiles : string → Template + string)
    (tmpl : string) (p : PagePtr) (σ : World) :
  resp σ = newResponse →
  ∃ σ',
    Wiki.renderTemplate ParseFiles tmpl p σ = (Done tt, σ')
    ∧ files σ' = files σ
    ∧ match ParseFiles (tmpl +:+ ".html") with
      | inr e =>
          status σ' = Some StatusInternalServerError
          ∧ written (resp σ') = e +:+ nl
          ∧ calls σ' = (calls σ ++ [CParseFiles (tmpl +:+ ".html");
                                     CError e StatusInternalServerError])%list
      | inl tpl =>
          match tpl p with
          | (chunks, None) =>
              resp σ' = writeChunks chunks newResponse
              ∧ written (resp σ') = joined chunks
              ∧ calls σ' = (calls σ ++ [CParseFiles (tmpl +:+ ".html");
                                         CExecute p])%list
          | (chunks, Some e) =>
              written (resp σ') = joined chunks +:+ e +:+ nl
              ∧ status σ' = Some (match chunks with
                                  | [] => StatusInternalServerError
                                  | _ :: _ => StatusOK
                                  end)
              ∧ calls σ' = (calls σ ++ [CParseFiles (tmpl +:+ ".html");
                                         CExecute p;
                                         CError e StatusInternalServerError])%list
          end
      end.
Proof.
  intros Hr. unfold Wiki.renderTemplate. run. simpl.
  destruct (ParseFiles (tmpl +:+ ".html")) as [tpl|e].
  - destruct (tpl p) as [chunks [e|]]; simpl.
    + lazymatch goal with |- context [http_Error ?e ?c ?s] =>
        destruct (http_Error_spec e c s) as (σ' & E & (F & _ & _ & C & K) & S) end.
      exists σ'. split; [exact E|]. split; [exact F|]. split.
      { rewrite (http_Error_written _ _ _ _ E). simpl.
        rewrite writeChunks_written, Hr. reflexivity. }
      split.
      { destruct chunks as [|c chunks].
        - apply S. simpl. now rewrite Hr.
        - unfold status.
          rewrite (K (StatusOK, header (resp σ))); [reflexivity|].
          simpl. apply (writeChunks_first c chunks). now rewrite Hr. }
      rewrite C. simpl. now rewrite <- !app_assoc.
    + eexists. split; [reflexivity|]. split; [reflexivity|].
      simpl. rewrite Hr. split; [reflexivity|].
      split; [now rewrite writeChunks_written|].
      now rewrite <- !app_assoc.
  - lazymatch goal with |- context [http_Error ?e ?c ?s] =>
      destruct (http_Error_spec e c s) as (σ' & E & (F & _ & _ & C & _) & S) end.
    exists σ'. split; [exact E|]. split; [exact F|].
    destruct S as (S & _ & W); [simpl; now rewrite Hr|].
    split; [exact S|]. split.
    + rewrite W. simpl. now rewrite Hr.
    + rewrite C. simpl. now rewrite <- app_assoc.
Qed.

Lemma wiki_renderTemplate_outcome_witness :
  let ParseFiles := fun name : string =>
    @inr Template string ("open " +:+ name +:+ ": no such file or directory") in
  ∃ σ',
    Wiki.renderTemplate ParseFiles "view" None emptyDir = (Done tt, σ')
    ∧ files σ' = ∅
    ∧ status σ' = Some StatusInternalServerError
    ∧ written (resp σ') = "open view.html: no such file or directory" +:+ nl
    ∧ calls σ' = [CParseFiles "view.html";
                  CError "open view.html: no such file or directory"
                    StatusInternalServerError].
Proof.
  intros ParseFiles.
  destruct (wiki_renderTemplate_outcome ParseFiles "view" None emptyDir eq_refl)
    as (σ' & E & F & H).
  exists σ'. split; [exact E|]. split; [exact F|]. exact H.
Defined.

Lemma Wiki_saveHandler_ok (r : Request) (t : string) (σ : World) :
  sliceFrom (String.length "/save/") (URLPath r) = Some t →
  writeErr σ (filename t) = None →
  let body := list_byte_of_string (FormValue r "body") in
  Wiki.saveHandler r σ
  = http_Redirect r ("/view/" +:+ t) StatusFound
      (setFiles (<[filename t := body]> (files σ))
         (record (CWriteFile (filename t) body perm0600)
            (printed ("saving" +:+ filename t)
               (printed ("save: " +:+ URLPath r) σ)))).
Proof.
  intros Hs H body. unfold Wiki.saveHandler, Println. rewrite bind_modify.
  erewrite bind_Done by (apply afterPrefix_Some; exact Hs).
  cbv zeta. fold body. now erewrite bind_Done by (apply save_ok; exact H).
Qed.

Lemma Wiki_saveHandler_refused (r : Request) (t e : string) (σ : World) :
  sliceFrom (String.length "/save/") (URLPath r) = Some t →
  writeErr σ (filename t) = Some e →
  let body := list_byte_of_string (FormValue r "body") in
  Wiki.saveHandler r σ
  = http_Error e StatusInternalServerError
      (record (CWriteFile (filename t) body perm0600)
         (printed ("saving" +:+ filename t)
            (printed ("save: " +:+ URLPath r) σ))).
Proof.
  intros Hs H body. unfold Wiki.saveHandler, Println. rewrite bind_modify.
  erewrite bind_Done by (apply afterPrefix_Some; exact Hs).
  cbv zeta. fold body. now erewrite bind_Done by (apply save_refused; exact H).
Qed.

(** X14. The save handler of wiki.go.  For a request whose path is
    /save/ followed by any string t, the handler makes one write, of the
    submitted body to t.txt.  An accepted write leaves the body in the
    file and is answered with status 302 through a redirect to /view/
    followed by t; a write refused with error e leaves the files as they
    were and is answered with status 500 and body e, without redirect. *)
Theorem wiki_saveHandler_outcome (r : Request) (t : string) (σ : World) :
  URLPath r = "/save/" +:+ t →
  resp σ = newResponse →
  let body := list_byte_of_string (FormValue r "body") in
  ∃ σ',
    Wiki.saveHandler r σ = (Done tt, σ')
    ∧ writesOf (calls σ') = (writesOf (calls σ) ++ [(filename t, body)])%list
    ∧ match writeErr σ (filename t) with
      | None =>
          files σ' = <[filename t := body]> (files σ)
          ∧ status σ' = Some StatusFound
          ∧ redirectsOf (calls σ')
            = (redirectsOf (calls σ) ++ [("/view/" +:+ t, StatusFound)])%list
      | Some e =>
          files σ' = files σ
          ∧ status σ' = Some StatusInternalServerError
          ∧ written (resp σ') = e +:+ nl
          ∧ redirectsOf (calls σ') = redirectsOf (calls σ)
      end.
Proof.
  intros Hp Hr body.
  assert (Hs : sliceFrom (String.length "/save/") (URLPath r) = Some t)
    by (rewrite Hp; apply sliceFrom_app).
  destruct (writeErr σ (filename t)) as [e|] eqn:E.
  - rewrite (Wiki_saveHandler_refused r t e σ Hs E). fold body.
    lazymatch goal with |- context [http_Error ?e ?c ?s] =>
      destruct (http_Error_spec e c s) as (σ' & -> & (F & _ & _ & C & _) & S) end.
    destruct S as (S & _ & W); [simpl; now rewrite Hr|].
    exists σ'. split; [reflexivity|].
    simpl in W. rewrite Hr in W. simpl in W.
    rewrite C. simpl. rewrite !writesOf_app, !redirectsOf_app. simpl.
    rewrite !app_nil_r. auto.
  - rewrite (Wiki_saveHandler_ok r t σ Hs E). fold body.
    lazymatch goal with |- context [http_Redirect ?a ?u ?c ?s] =>
      destruct (http_Redirect_spec a u c s)
        as (σ' & -> & (F & _ & _ & C & _) & S) end.
    destruct S as (S & _); [simpl; now rewrite Hr|].
    exists σ'. split; [reflexivity|].
    rewrite C. simpl. rewrite !writesOf_app, !redirectsOf_app. simpl.
    rewrite !app_nil_r. auto.
Qed.

Lemma wiki_saveHandler_outcome_witness :
  let r := {| Method := "POST"; URLPath := "/save/my.page";
              Form := {[ "body" := ["x"] ]} |} in
  let body := list_byte_of_string "x" in
  ∃ σ',
    Wiki.saveHandler r emptyDir = (Done tt, σ')
    ∧ writesOf (calls σ') = [("my.page.txt", body)]
    ∧ files σ' = {[ "my.page.txt" := body ]}
    ∧ status σ' = Some StatusFound
    ∧ redirectsOf (calls σ') = [("/view/my.page", StatusFound)].
Proof.
  intros r body.
  destruct (wiki_saveHandler_outcome r "my.page" emptyDir eq_refl eq_refl)
    as (σ' & E & W & H).
  exists σ'. split; [exact E|]. split; [exact W|]. exact H.
Defined.

(** X15. Paths shorter than the prefix.  In wiki.go a request whose path
    has fewer than len("/view/") bytes makes each of the three handlers
    panic on its slice expression, after the request line was printed,
    before any file is read or written and before anything is written
    to the response. *)
Theorem wiki_short_path_panics (ParseFiles : string → Template + string)
    (r : Request) (σ : World) :
  (String.length (URLPath r) < String.length "/view/")%nat →
  Wiki.viewHandler ParseFiles r σ
  = (Panic "slice bounds out of range", printed ("view: " +:+ URLPath r) σ)
  ∧ Wiki.editHandler ParseFiles r σ
    = (Panic "slice bounds out of range", printed ("edit: " +:+ URLPath r) σ)
  ∧ Wiki.saveHandler r σ
    = (Panic "slice bounds out of range", printed ("save: " +:+ URLPath r) σ).
Proof.
  intros H. apply sliceFrom_None in H.
  unfold Wiki.viewHandler, Wiki.editHandler, Wiki.saveHandler, Println.
  rewrite !bind_modify.
  repeat split; now erewrite bind_Panic by (apply afterPrefix_None; exact H).
Qed.

Lemma wiki_short_path_panics_witness :
  let ParseFiles := fun _ : string => @inl Template string (fun _ => ([], None)) in
  let r := {| Method := "GET"; URLPath := "/view"; Form := ∅ |} in
  Wiki.viewHandler ParseFiles r emptyDir
  = (Panic "slice bounds out of range", printed "view: /view" emptyDir)
  ∧ Wiki.editHandler ParseFiles r emptyDir
    = (Panic "slice bounds out of range", printed "edit: /view" emptyDir)
  ∧ Wiki.saveHandler r emptyDir
    = (Panic "slice bounds out of range", printed "save: /view" emptyDir).
Proof.
  intros ParseFiles r.
  apply (wiki_short_path_panics ParseFiles r emptyDir).
  simpl. lia.
Defined.

(** X16. The edit handler of wiki.go finds its title.  Although it cuts
    the path at len("/view/"), on a path /edit/ followed by any string t
    the title is t: the handler prints the request line, reads t.txt and
    is renderTemplate("edit") on the Page with title t and the stored
    body, or the empty body when the file does not exist.  No file is
    written and the files are left as they were. *)
Theorem wiki_editHandler_renders (ParseFiles : string → Template + string)
    (r : Request) (t : string) (σ : World) :
  URLPath r = "/edit/" +:+ t →
  let p := {| Title := t; Body := default [] (files σ !! filename t) |} in
  Wiki.editHandler ParseFiles r σ
  = Wiki.renderTemplate ParseFiles "edit" (Some p)
      (record (CReadFile (filename t)) (printed ("edit: " +:+ URLPath r) σ))
  ∧ ∃ σ' cs,
      Wiki.editHandler ParseFiles r σ = (Done tt, σ')
      ∧ calls σ' =
          (calls σ ++ [CPrintln ("edit: " +:+ URLPath r); CReadFile (filename t);
                       CParseFiles "edit.html"] ++ cs)%list
      ∧ files σ' = files σ.
Proof.
  intros Hp p.
  assert (Hs : sliceFrom (String.length "/view/") (URLPath r) = Some t)
    by (rewrite Hp; apply (sliceFrom_app "/edit/")).
  assert (E : Wiki.editHandler ParseFiles r σ
              = Wiki.renderTemplate ParseFiles "edit" (Some p)
                  (record (CReadFile (filename t))
                     (printed ("edit: " +:+ URLPath r) σ))).
  { unfold Wiki.editHandler, Println. rewrite bind_modify.
    erewrite bind_Done by (apply afterPrefix_Some; exact Hs). subst p.
    destruct (files σ !! filename t) as [b|] eqn:Hf.
    - now erewrite bind_Done by (apply loadPage_found; exact Hf).
    - now erewrite bind_Done by (apply loadPage_missing; exact Hf). }
  split; [exact E|]. rewrite E.
  lazymatch goal with |- context [Wiki.renderTemplate ?f ?n ?q ?s] =>
    destruct (Wiki_renderTemplate_spec f n q s)
      as (σ' & cs & -> & (F & _ & _ & C & _)) end.
  exists σ', cs. split; [reflexivity|]. split; [|exact F].
  rewrite C. simpl. rewrite <- !app_assoc. reflexivity.
Qed.

Lemma wiki_editHandler_renders_witness :
  let tpl : Template := fun p =>
    match p with
    | Some pg => ([Title pg; string_of_list_byte (Body pg)], None)
    | None => ([], Some "nil pointer evaluating *main.Page.Title")
    end in
  let ParseFiles := fun _ : string => @inl Template string tpl in
  let r := {| Method := "GET"; URLPath := "/edit/Alpha"; Form := ∅ |} in
  let b := list_byte_of_string "Hello" in
  let σ := world {[ "Alpha.txt" := b ]} (fun _ => None) in
  Wiki.editHandler ParseFiles r σ
  = Wiki.renderTemplate ParseFiles "edit" (Some {| Title := "Alpha"; Body := b |})
      (record (CReadFile "Alpha.txt") (printed "edit: /edit/Alpha" σ))
  ∧ ∃ σ' cs,
      Wiki.editHandler ParseFiles r σ = (Done tt, σ')
      ∧ calls σ' =
          (calls σ ++ [CPrintln "edit: /edit/Alpha"; CReadFile "Alpha.txt";
                       CParseFiles "edit.html"] ++ cs)%list
      ∧ files σ' = files σ.
Proof.
  intros tpl ParseFiles r b σ.
  apply (wiki_editHandler_renders ParseFiles r "Alpha" σ).
  reflexivity.
Defined.

(** ** The command-line stage *)

(** X17. main of the command-line stage ignores the errors of save and
    loadPage.  Where the write of TestPage.txt is accepted it prints the
    saving line and then the sample text.  Where the write is refused it
    prints whatever TestPage.txt already held, and when there is no such
    file it dereferences the nil Page and panics. *)
Theorem cli_main_outcome (σ : World) :
  let σs := printed "savingTestPage.txt" σ in
  match writeErr σ "TestPage.txt", files σ !! "TestPage.txt" with
  | None, _ =>
      fst (Cli.main σ) = Done tt
      ∧ files (snd (Cli.main σ)) !! "TestPage.txt"
        = Some (list_byte_of_string "This is a sample page")
      ∧ stdout (snd (Cli.main σ))
        = stdout σs +:+ "This is a sample page" +:+ nl
  | Some _, Some old =>
      fst (Cli.main σ) = Done tt
      ∧ files (snd (Cli.main σ)) = files σ
      ∧ stdout (snd (Cli.main σ))
        = stdout σs +:+ string_of_list_byte old +:+ nl
  | Some _, None =>
      fst (Cli.main σ) = Panic "invalid memory address or nil pointer dereference"
      ∧ files (snd (Cli.main σ)) = files σ
      ∧ stdout (snd (Cli.main σ)) = stdout σs
  end.
Proof.
  intros σs. unfold Cli.main.
  set (p1 := {| Title := "TestPage";
                Body := list_byte_of_string "This is a sample page" |}).
  change "TestPage.txt" with (filename (Title p1)).
  destruct (writeErr σ (filename (Title p1))) as [e|] eqn:E.
  - erewrite bind_Done by (apply save_refused; exact E).
    destruct (files σ !! filename (Title p1)) as [old|] eqn:Hf.
    + erewrite bind_Done by (apply (loadPage_found "TestPage" old); exact Hf).
      repeat split.
    + erewrite bind_Done by (apply (loadPage_missing "TestPage"); exact Hf).
      repeat split.
  - erewrite bind_Done by (apply save_ok; exact E).
    erewrite bind_Done
      by (apply (loadPage_found "TestPage" (Body p1)); simpl; apply lookup_insert_eq).
    simpl. split; [reflexivity|]. split; [apply lookup_insert_eq | reflexivity].
Qed.
